(** * The OIDC agent of the authentication gateway (pkg/oidcagent/handlers.go)

    A shallow embedding of the HTTP handlers of [OidcAgent]: the login flow
    ([LoginStart], [LoginEnd]), the session operations ([UserInfo], [Claims],
    [Refresh], [Logout], [CheckAuth]) and the two reverse proxies
    ([CodeFlowProxy], [DeviceFlowProxy]).

    A handler is a computation over the gin context: it reads the request,
    writes the response (status, cookies, headers, body), reads and writes
    the session, and calls the collaborators of the agent (identity provider,
    verifier, backend).  Every call to a collaborator and every session
    operation is recorded in a trace, so that "no exchange is performed" or
    "no backend request is sent" are statements about the trace.  Logging is
    not modelled. *)

From Stdlib Require Import NArith ZArith Ascii String List Lia.
From stdpp Require Import base option list gmap strings.

Import ListNotations.
Local Open Scope string_scope.
Local Open Scope Z_scope.

(** ** Errors and results: Go's [(value, error)] pairs *)

Inductive result (A : Type) : Type :=
| Ok (a : A)
| Err (e : string).
Arguments Ok {A} a.
Arguments Err {A} e.

Definition is_ok {A} (r : result A) : bool :=
  match r with Ok _ => true | Err _ => false end.

(** ** encoding/base64: [RawURLEncoding.EncodeToString] *)

Module base64.

(** The URL alphabet of RFC 4648 ([encodeURL]). *)
Definition encodeURL : string :=
  "ABCDEFGHIJKLMNOPQRSTUVWXYZabcdefghijklmnopqrstuvwxyz0123456789-_".

(** [enc.encode[i]]; every index the encoder uses is masked with [0x3F]. *)
Definition encode (i : N) : ascii :=
  match String.get (N.to_nat i) encodeURL with
  | Some a => a
  | None => "000"%char
  end.

Definition sextet (val : N) (shift : N) : ascii :=
  encode (N.land (N.shiftr val shift) 63).

(** [Encode] without padding ([NoPadding]): three source bytes give four
    characters, a remainder of one byte gives two characters and a
    remainder of two bytes three.  [val] stays below [2^24], so the
    machine [uint] never wraps. *)
Fixpoint Encode (src : list Byte.byte) : list ascii :=
  match src with
  | [] => []
  | [b0] =>
      let val := N.shiftl (Byte.to_N b0) 16 in
      [sextet val 18; sextet val 12]
  | [b0; b1] =>
      let val := N.lor (N.shiftl (Byte.to_N b0) 16) (N.shiftl (Byte.to_N b1) 8) in
      [sextet val 18; sextet val 12; sextet val 6]
  | b0 :: b1 :: b2 :: rest =>
      let val := N.lor (N.lor (N.shiftl (Byte.to_N b0) 16)
                              (N.shiftl (Byte.to_N b1) 8))
                       (Byte.to_N b2) in
      sextet val 18 :: sextet val 12 :: sextet val 6 :: sextet val 0
        :: Encode rest
  end.

Definition RawURLEncoding_EncodeToString (src : list Byte.byte) : string :=
  string_of_list_ascii (Encode src).

End base64.

(** ** encoding/hex: [EncodeToString] *)

Module hex.

Definition hextable : string := "0123456789abcdef".

Definition digit (i : N) : ascii :=
  match String.get (N.to_nat i) hextable with
  | Some a => a
  | None => "000"%char
  end.

Fixpoint Encode (src : list Byte.byte) : list ascii :=
  match src with
  | [] => []
  | v :: rest =>
      digit (N.shiftr (Byte.to_N v) 4) :: digit (N.land (Byte.to_N v) 15)
        :: Encode rest
  end.

Definition EncodeToString (src : list Byte.byte) : string :=
  string_of_list_ascii (Encode src).

End hex.

(** ** net/url: query escaping and [Values] *)

Module url.

Definition between (lo hi c : N) : bool := (lo <=? c)%N && (c <=? hi)%N.

(** [shouldEscape(c, encodeQueryComponent)]: everything but the unreserved
    characters (letters, digits, [-], [_], [.], [~]) is escaped. *)
Definition shouldEscape (c : ascii) : bool :=
  let n := N_of_ascii c in
  if between 97 122 n || between 65 90 n || between 48 57 n then false
  else if (n =? 45)%N || (n =? 95)%N || (n =? 46)%N || (n =? 126)%N then false
  else true.

Definition upperhex : string := "0123456789ABCDEF".

Definition upperhex_at (i : N) : ascii :=
  match String.get (N.to_nat i) upperhex with
  | Some a => a
  | None => "000"%char
  end.

(** [QueryEscape]: a space becomes [+], any other escaped byte [%XX]. *)
Fixpoint QueryEscape (s : string) : string :=
  match s with
  | EmptyString => EmptyString
  | String c rest =>
      if shouldEscape c then
        if Ascii.eqb c " "%char then String "+"%char (QueryEscape rest)
        else String "%"%char
               (String (upperhex_at (N.shiftr (N_of_ascii c) 4))
                  (String (upperhex_at (N.land (N_of_ascii c) 15))
                     (QueryEscape rest)))
      else String c (QueryEscape rest)
  end.

(** [url.Values] is [map[string][]string]. *)
Abbreviation Values := (gmap string (list string)).

(** [Values.Get]: the first value of the key, or the empty string. *)
Definition Get (v : Values) (key : string) : string :=
  match v !! key with
  | Some (x :: _) => x
  | _ => ""
  end.

(** [Values.Set] replaces the values of the key. *)
Definition Set_ (v : Values) (key value : string) : Values :=
  <[key := [value]]> v.

(** A parsed URL, as far as the agent looks at it. *)
Record URL := mkURL {
  Scheme : string;
  Host : string;
  Path : string;
  Query : Values
}.

End url.

(** ** time: instants and the clock *)

Module time.

(** An instant, in nanoseconds from Go's zero [Time]. *)
Definition Time := Z.

Definition IsZero (t : Time) : bool := t =? 0.
Definition Before (t u : Time) : bool := t <? u.
Definition Add (t : Time) (d : Z) : Time := t + d.

Definition Second : Z := 1000000000.
Definition Hour : Z := 3600 * Second.

(** [Duration.Seconds], truncated by the conversion to [int]. *)
Definition Seconds (d : Z) : Z := d / Second.

End time.

(** ** golang.org/x/oauth2: tokens and the authorization URL *)

Module oauth2.

(** The dynamically typed values ([interface{}]) of a token response. *)
Inductive any :=
| AString (s : string)
| ANumber (z : Z)
| ABool (b : bool)
| ANil.

Record Token := mkToken {
  AccessToken : string;
  TokenType : string;
  RefreshToken : string;
  Expiry : time.Time;
  raw : string -> any
}.

(** [Token.Extra]: a field of the raw token response, [nil] when absent. *)
Definition Extra (t : Token) (key : string) : any := raw t key.

(** The type assertion [v.(string)] in its two-result form. *)
Definition as_string (v : any) : option string :=
  match v with AString s => Some s | _ => None end.

Definition expiryDelta : Z := 10 * time.Second.

(** [Token.expired]: a zero expiry never expires; otherwise the token
    counts as expired ten seconds before its expiry. *)
Definition expired (t : Token) (timeNow : time.Time) : bool :=
  if time.IsZero (Expiry t) then false
  else time.Before (time.Add (Expiry t) (- expiryDelta)) timeNow.

(** [Token.Valid]: an access token is set and it is not expired.  The
    check is local: it looks at the token and at the clock only. *)
Definition Valid (t : Token) (timeNow : time.Time) : bool :=
  negb (String.eqb (AccessToken t) "") && negb (expired t timeNow).

Record Config := mkConfig {
  ClientID : string;
  ClientSecret : string;
  AuthURL : string;
  RedirectURL : string;
  Scopes : list string
}.

(** An [AuthCodeOption]; [SetAuthURLParam key value] sets one parameter. *)
Inductive AuthCodeOption := SetAuthURLParam (key value : string).

Definition setValue (v : url.Values) (opt : AuthCodeOption) : url.Values :=
  match opt with SetAuthURLParam key value => url.Set_ v key value end.

(** The URL [AuthCodeURL] returns is [AuthURL] followed by [?] (or [&]) and
    the encoded parameters; it is kept here as the endpoint and the
    parameter map that is encoded after it. *)
Record AuthorizationURL := mkAuthorizationURL {
  Endpoint : string;
  Params : url.Values
}.

Definition join_scopes (scopes : list string) : string :=
  String.concat " " scopes.

(** [Config.AuthCodeURL(state, opts...)]. *)
Definition AuthCodeURL (c : Config) (state : string)
    (opts : list AuthCodeOption) : AuthorizationURL :=
  let v : url.Values :=
    <["response_type" := ["code"]]> (<["client_id" := [ClientID c]]> ∅) in
  let v := if String.eqb (RedirectURL c) "" then v
           else url.Set_ v "redirect_uri" (RedirectURL c) in
  let v := if (0 <? Z.of_nat (length (Scopes c))) then
             url.Set_ v "scope" (join_scopes (Scopes c))
           else v in
  let v := if String.eqb state "" then v else url.Set_ v "state" state in
  let v := fold_left setValue opts v in
  {| Endpoint := AuthURL c; Params := v |}.

End oauth2.

(** ** github.com/coreos/go-oidc: ID tokens *)

Module oidc.

(** [oidc.Nonce(nonce)] is the authorization parameter [nonce]. *)
Definition Nonce (nonce : string) : oauth2.AuthCodeOption :=
  oauth2.SetAuthURLParam "nonce" nonce.

(** A verified ID token; [claims] are its raw JSON claims ([nil] when
    the token carries none). *)
Record IDToken := mkIDToken {
  Nonce_ : string;
  Subject : string;
  claims : option string
}.

Record UserInfo := mkUserInfo {
  ui_Subject : string;
  ui_claims : option string
}.

End oidc.

(** ** encoding/json: what [Unmarshal] requires of its target *)

Module json.

(** The Go value handed to [Unmarshal]: a pointer, or a value that is not
    one (such as a map variable passed by value, nil or not). *)
Inductive Target := Pointer | NonPointer.

(** [Unmarshal(data, v)] decodes only into a non-nil pointer; any other
    target is an [InvalidUnmarshalError] (a syntax error in [data] is
    reported first: an error either way).  [decode] is the decoder for
    the pointed-to type. *)
Definition Unmarshal {A} (decode : string -> result A) (data : string)
    (v : Target) : result A :=
  match v with
  | NonPointer => Err "json: Unmarshal(non-pointer)"
  | Pointer => decode data
  end.

End json.

(** ** net/http: status codes and cookies *)

Module http.

Definition StatusOK : Z := 200.
Definition StatusNoContent : Z := 204.
Definition StatusBadRequest : Z := 400.
Definition StatusUnauthorized : Z := 401.
Definition StatusInternalServerError : Z := 500.

(** [http.SameSite]; a context that never called [SetSameSite] holds the
    zero value. *)
Inductive SameSite :=
| SameSiteUnset
| SameSiteDefaultMode
| SameSiteLaxMode
| SameSiteStrictMode
| SameSiteNoneMode.

Record Cookie := mkCookie {
  Name : string;
  Value : string;
  MaxAge : Z;
  Path : string;
  Domain : string;
  SameSite_ : SameSite;
  Secure : bool;
  HttpOnly : bool
}.

(** The incoming request.  [Cookies] lists the cookies in header order,
    with the value gin hands out for each (query-unescaped); [proxyPath]
    is the route parameter of that name. *)
Record Request := mkRequest {
  URL_Scheme : string;
  Cookies : list (string * string);
  Header : list (string * string);
  Body : string;
  proxyPath : string
}.

(** [Request.Cookie]: the first cookie of that name, or [ErrNoCookie]. *)
Fixpoint find_cookie (name : string) (cs : list (string * string))
    : result string :=
  match cs with
  | [] => Err "http: named cookie not present"
  | (n, v) :: rest => if String.eqb n name then Ok v else find_cookie name rest
  end.

End http.

(** ** The reverse proxy's view of the backend *)

(** The request the [Director] of a proxy builds, with the credential the
    transport attaches to it (none for the plain transport). *)
Record BackendRequest := mkBackendRequest {
  br_Header : list (string * string);
  br_Host : string;
  br_URL_Scheme : string;
  br_URL_Host : string;
  br_URL_Path : string;
  br_Body : string;
  br_Bearer : option oauth2.Token
}.

Record BackendResponse := mkBackendResponse {
  bresp_status : Z;
  bresp_body : string
}.

(** ** The response bodies (pkg/oidcagent/models) *)

Inductive ResponseBody :=
| NoBody
| LoginStartResponse (AuthorizationRequestURL : oauth2.AuthorizationURL)
| LoginEndResponse (Handled LoggedIn : bool)
| UserInfoResponse (Subject PreferredUsername GivenName : string)
    (UpdatedAt : Z) (FamilyName Picture : string)
| ClaimsMap (claims : option (gmap string oauth2.any))
| LogoutResponse (LogoutURL : string)
| CheckAuthResponse (Status Message : string)
| DeviceStartResponse (DeviceAuthURL Issuer ClientID : string)
| Streamed (body : string).

(** ** What a handler does to the outside: the trace *)

Inductive Event :=
| EvExchange (code : string)
| EvVerify (rawIDToken : string)
| EvUserInfo (t : oauth2.Token)
| EvTokenSource (t : oauth2.Token)
| EvBackend (req : BackendRequest)
| EvSessionGet (key : string)
| EvSessionSet (key value : string)
| EvSessionDelete (key : string)
| EvSessionSave (ok : bool).

(** Calls that reach the identity provider over the network. *)
Definition is_provider_call (e : Event) : bool :=
  match e with
  | EvExchange _ | EvVerify _ | EvUserInfo _ | EvTokenSource _ => true
  | _ => false
  end.

Definition is_backend_call (e : Event) : bool :=
  match e with EvBackend _ => true | _ => false end.

Definition is_session_write (e : Event) : bool :=
  match e with
  | EvSessionSet _ _ | EvSessionDelete _ | EvSessionSave _ => true
  | _ => false
  end.

Definition is_session_op (e : Event) : bool :=
  match e with
  | EvSessionGet _ | EvSessionSet _ _ | EvSessionDelete _ | EvSessionSave _ => true
  | _ => false
  end.

(** ** The gin context *)

Module gin.

(** What has been written to the [ResponseWriter]. *)
Record Response := mkResponse {
  status : Z;
  cookies : list http.Cookie;
  header : list (string * string);
  body : ResponseBody;
  aborted : bool;
  Errors : list string
}.

(** Modelled from the spec: the session of pkg/ginsession, which is not
    among the sources.  It is "a mapping from string keys to opaque string
    values, scoped to one client", with get, set, delete and save:
    [values] is the mapping the handler works on, [persisted] what the
    backing store holds, and [store_fails] tells whether the store rejects
    a save. *)
Record Session := mkSession {
  values : gmap string string;
  persisted : gmap string string;
  store_fails : bool;
  SessionID : string
}.

Record Context := mkContext {
  Request : http.Request;
  timeNow : time.Time;
  rand_Reader : list Byte.byte;
  sameSite : http.SameSite;
  Writer : Response;
  session : Session;
  trace : list Event
}.

Definition with_Writer (w : Response) (c : Context) : Context :=
  {| Request := Request c; timeNow := timeNow c; rand_Reader := rand_Reader c;
     sameSite := sameSite c; Writer := w; session := session c;
     trace := trace c |}.

Definition with_session (s : Session) (c : Context) : Context :=
  {| Request := Request c; timeNow := timeNow c; rand_Reader := rand_Reader c;
     sameSite := sameSite c; Writer := Writer c; session := s;
     trace := trace c |}.

Definition with_sameSite (m : http.SameSite) (c : Context) : Context :=
  {| Request := Request c; timeNow := timeNow c; rand_Reader := rand_Reader c;
     sameSite := m; Writer := Writer c; session := session c;
     trace := trace c |}.

Definition with_rand_Reader (r : list Byte.byte) (c : Context) : Context :=
  {| Request := Request c; timeNow := timeNow c; rand_Reader := r;
     sameSite := sameSite c; Writer := Writer c; session := session c;
     trace := trace c |}.

(** Events are appended: the trace reads in the order of the calls. *)
Definition record (e : Event) (c : Context) : Context :=
  {| Request := Request c; timeNow := timeNow c; rand_Reader := rand_Reader c;
     sameSite := sameSite c; Writer := Writer c; session := session c;
     trace := trace c ++ [e] |}.

(** A fresh response: gin's writer starts at status 200. *)
Definition newResponse : Response :=
  {| status := http.StatusOK; cookies := []; header := []; body := NoBody;
     aborted := false; Errors := [] |}.

(** *** Handlers as computations with early return *)

Inductive Step (A : Type) : Type :=
| Next (a : A) (c : Context)
| Done (c : Context).
Arguments Next {A} a c.
Arguments Done {A} c.

Definition Handler (A : Type) : Type := Context -> Step A.

#[export] Instance Handler_ret : MRet Handler :=
  fun A a c => Next a c.

#[export] Instance Handler_bind : MBind Handler :=
  fun A B f m c =>
    match m c with
    | Next a c' => f a c'
    | Done c' => Done c'
    end.

(** Go's [return] in the middle of a handler. *)
Definition Return {A} : Handler A := fun c => Done c.

Definition run (h : Handler unit) (c : Context) : Context :=
  match h c with
  | Next _ c' => c'
  | Done c' => c'
  end.

(** [v, err := f(); if err != nil { onError; return }]. *)
Definition check {A} (m : Handler (result A)) (onError : string -> Handler unit)
    : Handler A :=
  r ← m;
  match r with
  | Ok a => mret a
  | Err e => onError e;; Return
  end.

(** [if cond { then_; return }]. *)
Definition returnIf (cond : bool) (then_ : Handler unit) : Handler unit :=
  if cond then then_;; Return else mret tt.

Definition pure {A} (f : Context -> A) : Handler A := fun c => Next (f c) c.
Definition modify (f : Context -> Context) : Handler unit :=
  fun c => Next tt (f c).

(** *** Writing the response *)

Definition set_status (code : Z) (w : Response) : Response :=
  {| status := code; cookies := cookies w; header := header w;
     body := body w; aborted := aborted w; Errors := Errors w |}.

Definition set_aborted (w : Response) : Response :=
  {| status := status w; cookies := cookies w; header := header w;
     body := body w; aborted := true; Errors := Errors w |}.

Definition add_error (e : string) (w : Response) : Response :=
  {| status := status w; cookies := cookies w; header := header w;
     body := body w; aborted := aborted w; Errors := Errors w ++ [e] |}.

Definition add_cookie (k : http.Cookie) (w : Response) : Response :=
  {| status := status w; cookies := cookies w ++ [k]; header := header w;
     body := body w; aborted := aborted w; Errors := Errors w |}.

Definition set_header (key value : string) (w : Response) : Response :=
  {| status := status w; cookies := cookies w;
     header := header w ++ [(key, value)];
     body := body w; aborted := aborted w; Errors := Errors w |}.

Definition set_body (b : ResponseBody) (w : Response) : Response :=
  {| status := status w; cookies := cookies w; header := header w;
     body := b; aborted := aborted w; Errors := Errors w |}.

Definition Status (code : Z) : Handler unit :=
  modify (fun c => with_Writer (set_status code (Writer c)) c).

Definition AbortWithStatus (code : Z) : Handler unit :=
  modify (fun c => with_Writer (set_aborted (set_status code (Writer c))) c).

Definition AbortWithError (code : Z) (err : string) : Handler unit :=
  AbortWithStatus code;;
  modify (fun c => with_Writer (add_error err (Writer c)) c).

Definition JSON (code : Z) (obj : ResponseBody) : Handler unit :=
  modify (fun c => with_Writer (set_body obj (set_status code (Writer c))) c).

Definition Header (key value : string) : Handler unit :=
  modify (fun c => with_Writer (set_header key value (Writer c)) c).

Definition SetSameSite (m : http.SameSite) : Handler unit :=
  modify (with_sameSite m).

(** [SetCookie]: an empty path becomes [/], the value is query-escaped,
    and the cookie takes the SameSite mode the context holds. *)
Definition SetCookie (name value : string) (maxAge : Z) (path domain : string)
    (secure httpOnly : bool) : Handler unit :=
  modify (fun c =>
    let path := if String.eqb path "" then "/" else path in
    with_Writer
      (add_cookie
         {| http.Name := name; http.Value := url.QueryEscape value;
            http.MaxAge := maxAge; http.Path := path; http.Domain := domain;
            http.SameSite_ := sameSite c; http.Secure := secure;
            http.HttpOnly := httpOnly |}
         (Writer c)) c).

(** [Cookie]: the named cookie of the request. *)
Definition Cookie (name : string) : Handler (result string) :=
  pure (fun c => http.find_cookie name (http.Cookies (Request c))).

(** [c.Request.URL.Scheme == "https"]. *)
Definition is_https : Handler bool :=
  pure (fun c => String.eqb (http.URL_Scheme (Request c)) "https").

Definition Param_proxyPath : Handler string :=
  pure (fun c => http.proxyPath (Request c)).

End gin.

Export gin.

(** ** pkg/ginsession: the session of the request *)

Module ginsession.

(** Modelled from the spec: the operations of the session of pkg/ginsession
    ("get/set/delete keyed values scoped to a client session", and save),
    on the mapping [values]; each is recorded in the trace. *)
Definition set_values (v : gmap string string) (s : Session) : Session :=
  {| values := v; persisted := persisted s; store_fails := store_fails s;
     SessionID := SessionID s |}.

(** Modelled from the spec: [Get] returns the value under the key and
    whether there is one. *)
Definition Get (key : string) : Handler (option string) :=
  modify (record (EvSessionGet key));;
  pure (fun c => values (session c) !! key).

(** Modelled from the spec: [Set] puts the value under the key. *)
Definition Set_ (key value : string) : Handler unit :=
  modify (record (EvSessionSet key value));;
  modify (fun c =>
    with_session (set_values (<[key := value]> (values (session c))) (session c)) c).

(** Modelled from the spec: [Delete] removes the entry of the key. *)
Definition Delete (key : string) : Handler unit :=
  modify (record (EvSessionDelete key));;
  modify (fun c =>
    with_session (set_values (delete key (values (session c))) (session c)) c).

(** Modelled from the spec: [Save] persists the values in the backing
    store, unless the store fails ("persist failure"). *)
Definition Save : Handler (result unit) :=
  fun c =>
    let s := session c in
    if store_fails s then
      Next (Err "session store") (record (EvSessionSave false) c)
    else
      Next (Ok tt)
        (record (EvSessionSave true)
           (with_session
              {| values := values s; persisted := values s;
                 store_fails := store_fails s; SessionID := SessionID s |} c)).

(** Modelled from the spec: the session the next request of the same
    client starts from holds the values that were persisted. *)
Definition reload (s : Session) : Session :=
  {| values := persisted s; persisted := persisted s;
     store_fails := store_fails s; SessionID := SessionID s |}.

End ginsession.

(** ** The agent and its collaborators *)

(** The claims the [UserInfo] handler decodes ([preferred_username],
    [given_name], [family_name], [picture], [updated_at]). *)
Record ProfileClaims := mkProfileClaims {
  Username : string;
  GivenName : string;
  FamilyName : string;
  Picture : string;
  UpdatedAt : Z
}.

(** [models.LoginEndRequest]. *)
Record LoginEndRequest := mkLoginEndRequest {
  RequestURL : string
}.

(** Whatever the handlers reach outside the package: the JSON codecs of the
    types involved, the URL parser, the identity provider (each call takes
    the flag of [prepareContext]: whether the client skips TLS
    verification), the agent's [LogoutURL] and the backend.  The handlers
    are verified for every behaviour of these. *)
Record Collaborators := mkCollaborators {
  decode_LoginEndRequest : string -> result LoginEndRequest;
  url_Parse : string -> result url.URL;
  json_Marshal_Token : oauth2.Token -> result string;
  json_Unmarshal_Token : string -> result oauth2.Token;
  decode_ProfileClaims : string -> result ProfileClaims;
  decode_claims_map : string -> result (gmap string oauth2.any);
  oauthConfig_Exchange : bool -> string -> result oauth2.Token;
  verifier_Verify : bool -> string -> result oidc.IDToken;
  provider_UserInfo : bool -> oauth2.Token -> result oidc.UserInfo;
  TokenSource_Token : bool -> oauth2.Token -> result oauth2.Token;
  agent_LogoutURL : string -> result string;
  backend_RoundTrip : BackendRequest -> BackendResponse
}.

Record OidcAgent := mkOidcAgent {
  insecureTLS : bool;
  oauthConfig : oauth2.Config;
  backend : url.URL;
  deviceAuthURL : string;
  oidcIssuer : string;
  clientID : string
}.

Definition TokenKey : string := "token".
Definition IDTokenKey : string := "id_token".

(** [io.ReadFull(rand.Reader, b)] and [rand.Read(b)]: the next [n] bytes of
    the entropy source, or an error when it cannot deliver them. *)
Definition rand_ReadFull (n : nat) : Handler (result (list Byte.byte)) :=
  fun c =>
    let r := rand_Reader c in
    if (length r <? n)%nat then
      Next (Err "unexpected EOF") (with_rand_Reader [] c)
    else
      Next (Ok (firstn n r)) (with_rand_Reader (skipn n r) c).

Definition randString (nByte : nat) : Handler (result string) :=
  r ← rand_ReadFull nByte;
  match r with
  | Err e => mret (Err e)
  | Ok b => mret (Ok (base64.RawURLEncoding_EncodeToString b))
  end.

(** [generateNewSID]: sixteen random bytes in hexadecimal. *)
Definition generateNewSID : Handler (result string) :=
  r ← rand_ReadFull 16;
  match r with
  | Err e => mret (Err e)
  | Ok b => mret (Ok (hex.EncodeToString b))
  end.

Definition isLoggedIn : Handler bool :=
  v ← ginsession.Get TokenKey;
  mret (match v with Some _ => true | None => false end).

(** [IDToken.Claims(v)] and [UserInfo.Claims(v)]: unmarshal the raw claims
    into [v]. *)
Definition Claims_into {A} (decode : string -> result A)
    (raw_claims : option string) (v : json.Target) : result A :=
  match raw_claims with
  | None => Err "oidc: claims not set"
  | Some data => json.Unmarshal decode data v
  end.

Section Handlers.

Variable w : Collaborators.
Variable o : OidcAgent.

Definition prepareContext : bool := insecureTLS o.

Definition tokenToJSONString (t : oauth2.Token) : Handler (result string) :=
  mret (json_Marshal_Token w t).

Definition JsonStringToToken (s : string) : Handler (result oauth2.Token) :=
  mret (json_Unmarshal_Token w s).

(** [BindJSON]: gin aborts with 400 itself when the body does not decode. *)
Definition BindJSON : Handler (result LoginEndRequest) :=
  body ← pure (fun c => http.Body (Request c));
  match decode_LoginEndRequest w body with
  | Ok data => mret (Ok data)
  | Err e => AbortWithError http.StatusBadRequest e;; mret (Err e)
  end.

Definition Exchange (ctx : bool) (code : string) : Handler (result oauth2.Token) :=
  modify (record (EvExchange code));;
  mret (oauthConfig_Exchange w ctx code).

Definition Verify (ctx : bool) (rawIDToken : string) : Handler (result oidc.IDToken) :=
  modify (record (EvVerify rawIDToken));;
  mret (verifier_Verify w ctx rawIDToken).

Definition LoginStart : Handler unit :=
  state ← check (randString 16)
    (fun _ => AbortWithStatus http.StatusInternalServerError);
  nonce ← check (randString 16)
    (fun _ => AbortWithStatus http.StatusInternalServerError);
  SetSameSite http.SameSiteStrictMode;;
  secure ← is_https;
  SetCookie "state" state (time.Seconds time.Hour) "/" "" secure true;;
  secure ← is_https;
  SetCookie "nonce" nonce (time.Seconds time.Hour) "/" "" secure true;;
  JSON http.StatusOK
    (LoginStartResponse
       (oauth2.AuthCodeURL (oauthConfig o) state [oidc.Nonce nonce])).

(** The branch of [LoginEnd] taken when [handleAuth] holds. *)
Definition completeLogin (ctx : bool) (code state : string) : Handler bool :=
  originalState ← check (Cookie "state")
    (fun _ => AbortWithStatus http.StatusInternalServerError);
  secure ← is_https;
  SetCookie "state" "" (-1) "/" "" secure true;;
  returnIf (negb (String.eqb state originalState))
    (AbortWithStatus http.StatusBadRequest);;
  nonce ← check (Cookie "nonce")
    (fun _ => AbortWithStatus http.StatusInternalServerError);
  secure ← is_https;
  SetCookie "nonce" "" (-1) "/" "" secure true;;
  oauth2Token ← check (Exchange ctx code)
    (fun err => AbortWithError http.StatusInternalServerError err);
  rawIDToken ← match oauth2.as_string (oauth2.Extra oauth2Token "id_token") with
               | Some s => mret s
               | None =>
                   AbortWithError http.StatusInternalServerError
                     "no id_token field in oauth2 token";;
                   Return
               end;
  idToken ← check (Verify ctx rawIDToken)
    (fun err => AbortWithError http.StatusInternalServerError err);
  returnIf (negb (String.eqb (oidc.Nonce_ idToken) nonce))
    (AbortWithError http.StatusBadRequest "nonce did not match");;
  tokenString ← check (tokenToJSONString oauth2Token)
    (fun _ => AbortWithError http.StatusBadRequest "can't convert token to string");
  ginsession.Set_ TokenKey tokenString;;
  ginsession.Set_ IDTokenKey rawIDToken;;
  check ginsession.Save
    (fun _ => AbortWithStatus http.StatusInternalServerError);;
  Header "Authorization" ("Bearer " +:+ oauth2.AccessToken oauth2Token);;
  mret true.

Definition LoginEnd : Handler unit :=
  data ← check BindJSON (fun _ => AbortWithStatus http.StatusBadRequest);
  requestURL ← check (mret (url_Parse w (RequestURL data)))
    (fun _ => AbortWithStatus http.StatusBadRequest);
  let ctx := prepareContext in
  let values := url.Query requestURL in
  let code := url.Get values "code" in
  let state := url.Get values "state" in
  let queryErr := url.Get values "error" in
  let failed := negb (String.eqb state "") && negb (String.eqb queryErr "") in
  returnIf failed
    (let status := if String.eqb queryErr "login_required"
                   then http.StatusUnauthorized
                   else http.StatusBadRequest in
     AbortWithStatus status);;
  let handleAuth := negb (String.eqb state "") && negb (String.eqb code "") in
  loggedIn ← (if handleAuth then completeLogin ctx code state else isLoggedIn);
  JSON http.StatusOK (LoginEndResponse handleAuth loggedIn).

Definition UserInfo : Handler unit :=
  let ctx := prepareContext in
  tokenRaw ← ginsession.Get TokenKey;
  match tokenRaw with
  | None => AbortWithStatus http.StatusUnauthorized
  | Some tokenRaw =>
      token ← check (JsonStringToToken tokenRaw)
        (fun _ => AbortWithStatus http.StatusInternalServerError);
      info ← check (modify (record (EvUserInfo token));;
                    mret (provider_UserInfo w ctx token))
        (fun _ => AbortWithStatus http.StatusInternalServerError);
      claims ← check
        (mret (Claims_into (decode_ProfileClaims w) (oidc.ui_claims info)
                 json.Pointer))
        (fun _ => AbortWithStatus http.StatusInternalServerError);
      JSON http.StatusOK
        (UserInfoResponse (oidc.ui_Subject info) (Username claims)
           (GivenName claims) (UpdatedAt claims) (FamilyName claims)
           (Picture claims))
  end.

(** [Claims]: the target of the decoding is the map variable [claims]
    itself, declared without a value and passed as it is, not its
    address. *)
Definition Claims : Handler unit :=
  let ctx := prepareContext in
  idTokenRaw ← ginsession.Get IDTokenKey;
  match idTokenRaw with
  | None => AbortWithStatus http.StatusUnauthorized
  | Some idTokenRaw =>
      idToken ← check (Verify ctx idTokenRaw)
        (fun _ => AbortWithStatus http.StatusInternalServerError);
      let claims : option (gmap string oauth2.any) := None in
      check
        (mret (Claims_into (decode_claims_map w) (oidc.claims idToken)
                 json.NonPointer))
        (fun _ => AbortWithStatus http.StatusInternalServerError);;
      JSON http.StatusOK (ClaimsMap claims)
  end.

Definition Refresh : Handler unit :=
  let ctx := prepareContext in
  tokenRaw ← ginsession.Get TokenKey;
  match tokenRaw with
  | None => AbortWithStatus http.StatusUnauthorized
  | Some tokenRaw =>
      token ← check (JsonStringToToken tokenRaw)
        (fun _ => AbortWithStatus http.StatusInternalServerError);
      newToken ← check (modify (record (EvTokenSource token));;
                        mret (TokenSource_Token w ctx token))
        (fun _ => AbortWithStatus http.StatusInternalServerError);
      newSID ← check generateNewSID
        (fun _ => AbortWithStatus http.StatusInternalServerError);
      tokenString ← check (tokenToJSONString newToken)
        (fun _ => AbortWithStatus http.StatusBadRequest);
      ginsession.Set_ TokenKey tokenString;;
      ginsession.Set_ "sessionID" newSID;;
      check ginsession.Save
        (fun _ => AbortWithStatus http.StatusInternalServerError);;
      secure ← is_https;
      SetCookie "sessionID" newSID 0 "/" "" secure true;;
      Header "Authorization" ("Bearer " +:+ oauth2.AccessToken newToken);;
      Status http.StatusNoContent
  end.

Definition Logout : Handler unit :=
  idToken ← ginsession.Get IDTokenKey;
  match idToken with
  | None => AbortWithStatus http.StatusUnauthorized
  | Some idToken =>
      ginsession.Delete IDTokenKey;;
      ginsession.Delete TokenKey;;
      check ginsession.Save
        (fun _ => AbortWithStatus http.StatusInternalServerError);;
      logoutURL ← check (mret (agent_LogoutURL w idToken))
        (fun _ => AbortWithStatus http.StatusInternalServerError);
      JSON http.StatusOK (LogoutResponse logoutURL)
  end.

(** [proxy.ServeHTTP]: the director takes the headers of the incoming
    request, points host and scheme at the backend and the path at the
    [proxyPath] parameter; the transport sends the request (with the bearer
    token, if it has a token source) and the backend's answer is streamed
    to the writer. *)
Definition ServeHTTP (bearer : option oauth2.Token) : Handler unit :=
  path ← Param_proxyPath;
  req ← pure (fun c =>
    {| br_Header := http.Header (Request c);
       br_Host := url.Host (backend o);
       br_URL_Scheme := url.Scheme (backend o);
       br_URL_Host := url.Host (backend o);
       br_URL_Path := path;
       br_Body := http.Body (Request c);
       br_Bearer := bearer |});
  modify (record (EvBackend req));;
  let resp := backend_RoundTrip w req in
  modify (fun c =>
    with_Writer
      (set_body (Streamed (bresp_body resp))
         (set_status (bresp_status resp) (Writer c))) c).

Definition CodeFlowProxy : Handler unit :=
  tokenRaw ← ginsession.Get TokenKey;
  match tokenRaw with
  | None => AbortWithStatus http.StatusUnauthorized
  | Some tokenRaw =>
      token ← check (JsonStringToToken tokenRaw)
        (fun _ => AbortWithStatus http.StatusInternalServerError);
      ServeHTTP (Some token)
  end.


Definition DeviceFlowProxy : Handler unit :=
  ServeHTTP None.

Definition CheckAuth : Handler unit :=
  tokenRaw ← ginsession.Get TokenKey;
  match tokenRaw with
  | None => AbortWithStatus http.StatusUnauthorized
  | Some tokenRaw =>
      token ← check (JsonStringToToken tokenRaw)
        (fun _ => AbortWithStatus http.StatusInternalServerError);
      now ← pure timeNow;
      returnIf (negb (oauth2.Valid token now))
        (JSON http.StatusUnauthorized
           (CheckAuthResponse "failure" "User is not authenticated."));;
      JSON http.StatusOK
        (CheckAuthResponse "success" "User is authenticated.")
  end.

End Handlers.

(** ** What the claims speak of *)

(** The cookie [SetCookie(name, "", -1, "/", "", secure, true)] leaves in the
    response of [c]: empty value, negative max-age. *)
Definition cleared_cookie (name : string) (c : Context) : http.Cookie :=
  {| http.Name := name; http.Value := ""; http.MaxAge := -1;
     http.Path := "/"; http.Domain := "";
     http.SameSite_ := sameSite c;
     http.Secure := String.eqb (http.URL_Scheme (Request c)) "https";
     http.HttpOnly := true |}.

(** The CSRF cookie [LoginStart] sets: one hour, strict, path [/]. *)
Definition csrf_cookie (name value : string) (c : Context) : http.Cookie :=
  {| http.Name := name; http.Value := value; http.MaxAge := 3600;
     http.Path := "/"; http.Domain := "";
     http.SameSite_ := http.SameSiteStrictMode;
     http.Secure := String.eqb (http.URL_Scheme (Request c)) "https";
     http.HttpOnly := true |}.

(** The events a run added to the trace it started with. *)
Definition new_events (before after : Context) : list Event :=
  skipn (length (trace before)) (trace after).

(** The context of a completion attempt when the nonce is compared: both
    cookies cleared, the exchange and the verification in the trace. *)
Definition verified_context (c : Context) (code rawIDToken : string) : Context :=
  record (EvVerify rawIDToken)
    (record (EvExchange code)
       (with_Writer
          (add_cookie (cleared_cookie "nonce" c)
             (add_cookie (cleared_cookie "state" c) (Writer c))) c)).

(** The next request of the same client, arriving at time [now]: a fresh
    response, and the session as the store holds it after [prev]. *)
Definition next_request (req : http.Request) (now : time.Time)
    (prev : Context) : Context :=
  {| Request := req; timeNow := now; rand_Reader := rand_Reader prev;
     sameSite := http.SameSiteUnset; Writer := newResponse;
     session := ginsession.reload (session prev); trace := trace prev |}.

(** The session operations that require a login. *)
Inductive SessionOp := OpUserInfo | OpClaims | OpRefresh | OpCheckAuth.

Definition session_handler (w : Collaborators) (o : OidcAgent)
    (op : SessionOp) : Handler unit :=
  match op with
  | OpUserInfo => UserInfo w o
  | OpClaims => Claims w o
  | OpRefresh => Refresh w o
  | OpCheckAuth => CheckAuth w
  end.

(** The statuses a client gets for a sequence of such requests (each with
    its time of arrival), each run on the session the store holds after the
    one before it. *)
Fixpoint serve (w : Collaborators) (o : OidcAgent)
    (reqs : list (SessionOp * http.Request * time.Time)) (prev : Context)
    : list Z :=
  match reqs with
  | [] => []
  | (op, req, now) :: rest =>
      let c := run (session_handler w o op) (next_request req now prev) in
      status (Writer c) :: serve w o rest c
  end.

(** Neither the token nor the ID token is in the store. *)
Definition logged_out (s : Session) : Prop :=
  persisted s !! TokenKey = None /\ persisted s !! IDTokenKey = None.

(** ** A concrete deployment, for examples *)

Module Scenario.

Definition agent : OidcAgent :=
  {| insecureTLS := false;
     oauthConfig :=
       {| oauth2.ClientID := "gateway";
          oauth2.ClientSecret := "secret";
          oauth2.AuthURL := "https://idp.example/auth";
          oauth2.RedirectURL := "https://gateway.example/login";
          oauth2.Scopes := ["openid"; "profile"] |};
     backend := {| url.Scheme := "https"; url.Host := "api.example";
                   url.Path := ""; url.Query := ∅ |};
     deviceAuthURL := "https://idp.example/device";
     oidcIssuer := "https://idp.example";
     clientID := "gateway" |}.

Definition callback (q : list (string * list string)) : url.URL :=
  {| url.Scheme := "https"; url.Host := "gateway.example";
     url.Path := "/login"; url.Query := list_to_map q |}.

(** The callback URLs the examples use, with their parsed form. *)
Definition parsed : list (string * url.URL) :=
  [ ("https://gateway.example/login?state=S&code=ABC",
     callback [("state", ["S"]); ("code", ["ABC"])]);
    ("https://gateway.example/login?state=S&code=ABC&error=login_required",
     callback [("state", ["S"]); ("code", ["ABC"]);
               ("error", ["login_required"])]);
    ("https://gateway.example/login?error=login_required",
     callback [("error", ["login_required"])]);
    ("https://gateway.example/login?state=S&error=login_required",
     callback [("state", ["S"]); ("error", ["login_required"])]);
    ("https://gateway.example/login?state=S&error=access_denied",
     callback [("state", ["S"]); ("error", ["access_denied"])]) ].

Fixpoint lookup_parsed (s : string) (t : list (string * url.URL))
    : result url.URL :=
  match t with
  | [] => Err "parse"
  | (k, u) :: rest => if String.eqb k s then Ok u else lookup_parsed s rest
  end.

Definition token (access : string) (expiry : time.Time) : oauth2.Token :=
  {| oauth2.AccessToken := access; oauth2.TokenType := "Bearer";
     oauth2.RefreshToken := "refresh-1"; oauth2.Expiry := expiry;
     oauth2.raw := fun key =>
       if String.eqb key "id_token" then oauth2.AString "raw-id-token"
       else oauth2.ANil |}.

(** A provider that exchanges the code [ABC], issues ID tokens with the
    nonce [id_nonce], and a JSON codec for tokens that writes [access]
    tokens as the string [serialized] (or fails, when [marshal_ok] is
    off) and reads that string back.  The request body is taken to be the
    [request_url] it carries. *)
Definition world (id_nonce : string) (marshal_ok : bool) : Collaborators :=
  {| decode_LoginEndRequest := fun body =>
       if String.eqb body "" then Err "EOF" else Ok {| RequestURL := body |};
     url_Parse := fun s => lookup_parsed s parsed;
     json_Marshal_Token := fun t =>
       if marshal_ok then Ok ("token:" +:+ oauth2.AccessToken t)
       else Err "json: error calling MarshalJSON for type time.Time";
     json_Unmarshal_Token := fun s =>
       if String.eqb s "token:access-1" then Ok (token "access-1" 5000000000000)
       else Err "invalid character";
     decode_ProfileClaims := fun _ =>
       Ok {| Username := "alice"; GivenName := "Alice"; FamilyName := "A";
             Picture := ""; UpdatedAt := 0 |};
     decode_claims_map := fun _ =>
       Ok {[ "sub" := oauth2.AString "alice" ]};
     oauthConfig_Exchange := fun _ code =>
       if String.eqb code "ABC" then Ok (token "access-1" 5000000000000)
       else Err "oauth2: cannot fetch token";
     verifier_Verify := fun _ rawIDToken =>
       if String.eqb rawIDToken "raw-id-token" then
         Ok {| oidc.Nonce_ := id_nonce; oidc.Subject := "alice";
               oidc.claims := Some "{sub: alice}" |}
       else Err "oidc: malformed jwt";
     provider_UserInfo := fun _ _ =>
       Ok {| oidc.ui_Subject := "alice"; oidc.ui_claims := Some "{}" |};
     TokenSource_Token := fun _ t => Ok (token "access-2" 9000000000000);
     agent_LogoutURL := fun hint => Ok ("https://idp.example/logout?hint=" +:+ hint);
     backend_RoundTrip := fun _ =>
       {| bresp_status := 200; bresp_body := "backend says hello" |} |}.

Definition empty_session : Session :=
  {| values := ∅; persisted := ∅; store_fails := false; SessionID := "sid-0" |}.

Definition logged_in_session : Session :=
  let v : gmap string string :=
    <[IDTokenKey := "raw-id-token"]> (<[TokenKey := "token:access-1"]> ∅) in
  {| values := v; persisted := v; store_fails := false; SessionID := "sid-1" |}.

Definition entropy : list Byte.byte :=
  list_byte_of_string "0123456789abcdefFEDCBA9876543210 and some more".

(** A request with the given body and cookies, at time [now]. *)
Definition request (body : string) (cookies : list (string * string))
    (s : Session) (now : time.Time) : Context :=
  {| Request := {| http.URL_Scheme := "https"; http.Cookies := cookies;
                   http.Header := [("Accept", "application/json")];
                   http.Body := body; http.proxyPath := "/api/devices" |};
     timeNow := now; rand_Reader := entropy;
     sameSite := http.SameSiteUnset; Writer := newResponse;
     session := s; trace := [] |}.

End Scenario.

(** ** The statements the counterexamples refute *)

(** "Every LoginEnd request whose callback carries non-empty state and code
    and whose state differs from the state cookie is answered 400, and the
    session is unchanged." *)
Definition state_mismatch_always_400 : Prop :=
  forall (w : Collaborators) (o : OidcAgent) (c : Context)
    (data : LoginEndRequest) (u : url.URL) (originalState : string),
    decode_LoginEndRequest w (http.Body (Request c)) = Ok data ->
    url_Parse w (RequestURL data) = Ok u ->
    url.Get (url.Query u) "state" <> "" ->
    url.Get (url.Query u) "code" <> "" ->
    http.find_cookie "state" (http.Cookies (Request c)) = Ok originalState ->
    url.Get (url.Query u) "state" <> originalState ->
    status (Writer (run (LoginEnd w o) c)) = http.StatusBadRequest
    /\ session (run (LoginEnd w o) c) = session c.

(** "Every completion attempt (callback with non-empty state and code)
    clears both the state and the nonce cookie, on every outcome path." *)
Definition completion_clears_both_cookies : Prop :=
  forall (w : Collaborators) (o : OidcAgent) (c : Context)
    (data : LoginEndRequest) (u : url.URL),
    decode_LoginEndRequest w (http.Body (Request c)) = Ok data ->
    url_Parse w (RequestURL data) = Ok u ->
    url.Get (url.Query u) "state" <> "" ->
    url.Get (url.Query u) "code" <> "" ->
    In (cleared_cookie "state" c) (cookies (Writer (run (LoginEnd w o) c)))
    /\ In (cleared_cookie "nonce" c) (cookies (Writer (run (LoginEnd w o) c))).

(** "Every LoginEnd request whose callback carries the error login_required
    is answered 401, and one with any other non-empty error 400." *)
Definition error_param_decides_status : Prop :=
  forall (w : Collaborators) (o : OidcAgent) (c : Context)
    (data : LoginEndRequest) (u : url.URL),
    decode_LoginEndRequest w (http.Body (Request c)) = Ok data ->
    url_Parse w (RequestURL data) = Ok u ->
    url.Get (url.Query u) "error" <> "" ->
    status (Writer (run (LoginEnd w o) c)) =
      if String.eqb (url.Get (url.Query u) "error") "login_required"
      then http.StatusUnauthorized else http.StatusBadRequest.

(** ** Notions for the properties of the handlers *)

(** The session holds a value under the token key ([isLoggedIn]'s test). *)
Definition has_token (s : Session) : bool :=
  match values s !! TokenKey with
  | Some _ => true
  | None => false
  end.

(** What every cookie of the package is set with: HTTP-only, path [/], no
    domain, and secure exactly when the request's scheme is https. *)
Definition hardened (c : Context) (k : http.Cookie) : Prop :=
  http.HttpOnly k = true
  /\ http.Path k = "/"
  /\ http.Domain k = ""
  /\ http.Secure k = String.eqb (http.URL_Scheme (Request c)) "https".

(** The status is one of those a failed request is aborted with. *)
Definition aborted_with (statuses : list Z) (w : Response) : Prop :=
  aborted w = true /\ In (status w) statuses.

(** The request the director of a proxy builds from the request of [c]. *)
Definition proxied_request (o : OidcAgent) (bearer : option oauth2.Token)
    (c : Context) : BackendRequest :=
  {| br_Header := http.Header (Request c);
     br_Host := url.Host (backend o);
     br_URL_Scheme := url.Scheme (backend o);
     br_URL_Host := url.Host (backend o);
     br_URL_Path := http.proxyPath (Request c);
     br_Body := http.Body (Request c);
     br_Bearer := bearer |}.

(** The session-identifier cookie [Refresh] sets: a session cookie
    (max-age 0) on path [/]. *)
Definition sid_cookie (value : string) (c : Context) : http.Cookie :=
  {| http.Name := "sessionID"; http.Value := value; http.MaxAge := 0;
     http.Path := "/"; http.Domain := "";
     http.SameSite_ := sameSite c;
     http.Secure := String.eqb (http.URL_Scheme (Request c)) "https";
     http.HttpOnly := true |}.

(** The cookies a client sends back: name and value of those it was
    given. *)
Definition returned_cookies (ks : list http.Cookie) : list (string * string) :=
  map (fun k => (http.Name k, http.Value k)) ks.

(** ** Running a handler symbolically *)

Ltac unfold_monad :=
  unfold run, check, returnIf, Status, AbortWithStatus, AbortWithError, JSON,
    Header, SetSameSite, SetCookie, Cookie, is_https, Param_proxyPath,
    ginsession.Get, ginsession.Set_, ginsession.Delete, ginsession.Save,
    Return, pure, modify, mbind, mret, Handler_bind, Handler_ret in *.

Ltac exec := unfold_monad; cbn.

(** One case analysis on what a run branches on next: the innermost
    scrutinee (the random strings apart, which have their own lemmas). *)
Ltac outcome :=
  match goal with
  | |- context [match ?x with _ => _ end] =>
      lazymatch x with
      | context [match _ with _ => _ end] => fail
      | randString _ _ => fail
      | generateNewSID _ => fail
      | _ => destruct x eqn:?
      end
  end.

(** The cookies a run added, each with the flags of [hardened]. *)
Ltac new_cookies :=
  first
    [ exists []; split; [symmetry; apply app_nil_r | constructor]
    | eexists; split;
      [ rewrite <- ?app_assoc; reflexivity
      | repeat (apply List.Forall_cons; [repeat split|]); apply List.Forall_nil ] ].

(** The random strings are kept folded while a handler is run; the lemmas
    about them say what they return. *)
Arguments randString : simpl never.
Arguments generateNewSID : simpl never.

Example base64_16 :
  base64.RawURLEncoding_EncodeToString
    (repeat Byte.xff 16) = "_____________________w".
Proof. reflexivity. Qed.

Example base64_foobar :
  base64.RawURLEncoding_EncodeToString
    (list_byte_of_string "foobar") = "Zm9vYmFy"
  /\ base64.RawURLEncoding_EncodeToString
    (list_byte_of_string "fooba") = "Zm9vYmE"
  /\ base64.RawURLEncoding_EncodeToString
    (list_byte_of_string "foob") = "Zm9vYg".
Proof. repeat split; reflexivity. Qed.

Example hex_example :
  hex.EncodeToString [Byte.x00; Byte.xff; Byte.x1a] = "00ff1a".
Proof. reflexivity. Qed.

Example escape_example :
  url.QueryEscape "a b/c_d-e" = "a+b%2Fc_d-e".
Proof. reflexivity. Qed.

(** * Properties *)

Local Open Scope list_scope.

(** ** Traces *)

Lemma new_events_app (c c' : Context) (l : list Event) :
  trace c' = trace c ++ l -> new_events c c' = l.
Proof.
  intros E. unfold new_events. rewrite E.
  rewrite List.skipn_app, List.skipn_all, Nat.sub_diag. reflexivity.
Qed.

Lemma new_events_nil (c c' : Context) :
  trace c' = trace c -> new_events c c' = [].
Proof.
  intros E. apply new_events_app. rewrite E, app_nil_r. reflexivity.
Qed.

Lemma eqb_false_of_neq (s t : string) : s <> t -> String.eqb s t = false.
Proof. apply String.eqb_neq. Qed.

(** ** LoginEnd: the provider reported an error *)

(** With both [state] and [error] set the handler aborts at once: 401 for
    [login_required], 400 otherwise, and touches nothing else. *)
Lemma LoginEnd_failed (w : Collaborators) (o : OidcAgent) (c : Context)
    (data : LoginEndRequest) (u : url.URL) :
  decode_LoginEndRequest w (http.Body (Request c)) = Ok data ->
  url_Parse w (RequestURL data) = Ok u ->
  url.Get (url.Query u) "state" <> "" ->
  url.Get (url.Query u) "error" <> "" ->
  run (LoginEnd w o) c =
    with_Writer
      (set_aborted
         (set_status
            (if String.eqb (url.Get (url.Query u) "error") "login_required"
             then http.StatusUnauthorized else http.StatusBadRequest)
            (Writer c))) c.
Proof.
  intros Hd Hu Hs He.
  apply eqb_false_of_neq in Hs, He.
  unfold LoginEnd, BindJSON. exec.
  rewrite Hd. cbn. rewrite Hu. cbn. rewrite Hs, He. cbn. reflexivity.
Qed.

(** C5, as amended: a LoginEnd request whose callback carries a non-empty
    state and a non-empty error is answered 401 when the error is
    login_required and 400 for any other error value; the handler is aborted
    and performs no exchange, no verification and no session operation (it
    adds no event to the trace and leaves session and cookies as they
    were). *)
Theorem LoginEnd_provider_error (w : Collaborators) (o : OidcAgent)
    (c : Context) (data : LoginEndRequest) (u : url.URL) :
  decode_LoginEndRequest w (http.Body (Request c)) = Ok data ->
  url_Parse w (RequestURL data) = Ok u ->
  url.Get (url.Query u) "state" <> "" ->
  url.Get (url.Query u) "error" <> "" ->
  let c' := run (LoginEnd w o) c in
  (url.Get (url.Query u) "error" = "login_required" ->
     status (Writer c') = http.StatusUnauthorized)
  /\ (url.Get (url.Query u) "error" <> "login_required" ->
     status (Writer c') = http.StatusBadRequest)
  /\ aborted (Writer c') = true
  /\ new_events c c' = []
  /\ session c' = session c
  /\ cookies (Writer c') = cookies (Writer c).
Proof.
  intros Hd Hu Hs He c'. subst c'.
  rewrite (LoginEnd_failed w o c data u Hd Hu Hs He).
  repeat split; cbn.
  - intros ->. reflexivity.
  - intros Hne. rewrite (eqb_false_of_neq _ _ Hne). reflexivity.
  - apply new_events_nil. reflexivity.
Qed.

Lemma LoginEnd_provider_error_witness :
  let w := Scenario.world "N" true in
  let c := Scenario.request
             "https://gateway.example/login?state=S&error=access_denied"
             [("state", "S"); ("nonce", "N")] Scenario.empty_session 1000 in
  status (Writer (run (LoginEnd w Scenario.agent) c)) = 400
  /\ new_events c (run (LoginEnd w Scenario.agent) c) = [].
Proof.
  intros w c.
  destruct (LoginEnd_provider_error w Scenario.agent c
              {| RequestURL := http.Body (Request c) |}
              (Scenario.callback [("state", ["S"]); ("error", ["access_denied"])]))
    as (_ & H400 & _ & Hev & _); try reflexivity; try (vm_compute; discriminate).
  split; [apply H400; vm_compute; discriminate | exact Hev].
Defined.

(** C5, as stated, fails: the callback [?error=login_required] without a
    state is answered 200 (the status poll), not 401. *)
Lemma error_without_state_is_polled : ~ error_param_decides_status.
Proof.
  intros H.
  specialize (H (Scenario.world "N" true) Scenario.agent
    (Scenario.request "https://gateway.example/login?error=login_required"
       [] Scenario.empty_session 1000)
    {| RequestURL := "https://gateway.example/login?error=login_required" |}
    (Scenario.callback [("error", ["login_required"])])
    eq_refl eq_refl).
  assert (Hne : url.Get (url.Query (Scenario.callback [("error", ["login_required"])])) "error" <> "")
    by (vm_compute; discriminate).
  specialize (H Hne). vm_compute in H. discriminate H.
Qed.

(** ** LoginEnd: the completion attempt *)

Section Completion.

Variable w : Collaborators.
Variable o : OidcAgent.
Variable c : Context.
Variable data : LoginEndRequest.
Variable u : url.URL.

Hypothesis Hdecode : decode_LoginEndRequest w (http.Body (Request c)) = Ok data.
Hypothesis Hparse : url_Parse w (RequestURL data) = Ok u.
Hypothesis Hstate : url.Get (url.Query u) "state" <> "".
Hypothesis Hcode : url.Get (url.Query u) "code" <> "".
Hypothesis Herror : url.Get (url.Query u) "error" = "".

Local Abbreviation state := (url.Get (url.Query u) "state").
Local Abbreviation code := (url.Get (url.Query u) "code").

(** With [state] and [code] set and no [error], the handler runs the
    completion branch and, if that does not return early, reports
    [handled] and [logged_in]. *)
Lemma LoginEnd_handleAuth :
  run (LoginEnd w o) c =
  run (loggedIn ← completeLogin w (insecureTLS o) code state;
       JSON http.StatusOK (LoginEndResponse true loggedIn)) c.
Proof.
  pose proof (eqb_false_of_neq _ _ Hstate) as Hs.
  pose proof (eqb_false_of_neq _ _ Hcode) as Hc.
  unfold LoginEnd, BindJSON, prepareContext. exec.
  rewrite Hdecode. cbn. rewrite Hparse. cbn.
  rewrite Hs, Hc, Herror. cbn. reflexivity.
Qed.

(** The state cookie is lost: 500, and no cookie is cleared. *)
Lemma completion_without_state_cookie (e : string) :
  http.find_cookie "state" (http.Cookies (Request c)) = Err e ->
  run (LoginEnd w o) c =
    with_Writer (set_aborted (set_status http.StatusInternalServerError (Writer c))) c.
Proof.
  intros Hk. rewrite LoginEnd_handleAuth.
  unfold completeLogin. exec. rewrite Hk. reflexivity.
Qed.

(** The state cookie differs: it is cleared, then 400. *)
Lemma completion_state_mismatch (originalState : string) :
  http.find_cookie "state" (http.Cookies (Request c)) = Ok originalState ->
  state <> originalState ->
  run (LoginEnd w o) c =
    with_Writer
      (set_aborted
         (set_status http.StatusBadRequest
            (add_cookie (cleared_cookie "state" c) (Writer c)))) c.
Proof.
  intros Hk Hne. rewrite LoginEnd_handleAuth.
  unfold completeLogin. exec. rewrite Hk. cbn.
  rewrite (eqb_false_of_neq _ _ Hne). reflexivity.
Qed.

(** The state matches but the nonce cookie is lost: 500, and only the
    state cookie is cleared. *)
Lemma completion_without_nonce_cookie (e : string) :
  http.find_cookie "state" (http.Cookies (Request c)) = Ok state ->
  http.find_cookie "nonce" (http.Cookies (Request c)) = Err e ->
  run (LoginEnd w o) c =
    with_Writer
      (set_aborted
         (set_status http.StatusInternalServerError
            (add_cookie (cleared_cookie "state" c) (Writer c)))) c.
Proof.
  intros Hk Hn. rewrite LoginEnd_handleAuth.
  unfold completeLogin. exec. rewrite Hk. cbn.
  rewrite String.eqb_refl. cbn. rewrite Hn. reflexivity.
Qed.

(** Both cookies are there and the state matches: whatever the exchange,
    the verification, the serialization and the store do afterwards, the
    response clears the state cookie and then the nonce cookie. *)
Lemma completion_clears_nonce (nonce : string) :
  http.find_cookie "state" (http.Cookies (Request c)) = Ok state ->
  http.find_cookie "nonce" (http.Cookies (Request c)) = Ok nonce ->
  cookies (Writer (run (LoginEnd w o) c)) =
    cookies (Writer c) ++ [cleared_cookie "state" c; cleared_cookie "nonce" c].
Proof.
  intros Hk Hn. rewrite LoginEnd_handleAuth.
  unfold completeLogin, Exchange, Verify, tokenToJSONString. exec.
  rewrite Hk. cbn. rewrite String.eqb_refl. cbn. rewrite Hn. cbn.
  destruct (oauthConfig_Exchange w (insecureTLS o) code) as [tok|]; cbn;
    [|rewrite <- app_assoc; reflexivity].
  destruct (oauth2.as_string (oauth2.Extra tok "id_token")) as [rawIDToken|]; cbn;
    [|rewrite <- app_assoc; reflexivity].
  destruct (verifier_Verify w (insecureTLS o) rawIDToken) as [idToken|]; cbn;
    [|rewrite <- app_assoc; reflexivity].
  destruct (String.eqb (oidc.Nonce_ idToken) nonce); cbn;
    [|rewrite <- app_assoc; reflexivity].
  destruct (json_Marshal_Token w tok); cbn;
    [|rewrite <- app_assoc; reflexivity].
  destruct (store_fails (session c)); cbn; rewrite <- app_assoc; reflexivity.
Qed.

(** Up to the nonce comparison: state and nonce cookies present, state
    matching, exchange and verification successful. *)
Section Verified.

Variable nonce : string.
Variable oauth2Token : oauth2.Token.
Variable rawIDToken : string.
Variable idToken : oidc.IDToken.

Hypothesis Hcookie : http.find_cookie "state" (http.Cookies (Request c)) = Ok state.
Hypothesis Hnonce : http.find_cookie "nonce" (http.Cookies (Request c)) = Ok nonce.
Hypothesis Hexchange : oauthConfig_Exchange w (insecureTLS o) code = Ok oauth2Token.
Hypothesis Hextra :
  oauth2.as_string (oauth2.Extra oauth2Token "id_token") = Some rawIDToken.
Hypothesis Hverify : verifier_Verify w (insecureTLS o) rawIDToken = Ok idToken.

Lemma completion_nonce_mismatch :
  oidc.Nonce_ idToken <> nonce ->
  run (LoginEnd w o) c =
    with_Writer
      (add_error "nonce did not match"
         (set_aborted
            (set_status http.StatusBadRequest (Writer (verified_context c code rawIDToken)))))
      (verified_context c code rawIDToken).
Proof.
  intros Hne. rewrite LoginEnd_handleAuth.
  unfold completeLogin, Exchange, Verify. exec.
  rewrite Hcookie. cbn. rewrite String.eqb_refl. cbn.
  rewrite Hnonce. cbn. rewrite Hexchange. cbn.
  rewrite Hextra. cbn. rewrite Hverify. cbn.
  rewrite (eqb_false_of_neq _ _ Hne). reflexivity.
Qed.

Lemma completion_marshal_failure (e : string) :
  oidc.Nonce_ idToken = nonce ->
  json_Marshal_Token w oauth2Token = Err e ->
  run (LoginEnd w o) c =
    with_Writer
      (add_error "can't convert token to string"
         (set_aborted
            (set_status http.StatusBadRequest (Writer (verified_context c code rawIDToken)))))
      (verified_context c code rawIDToken).
Proof.
  intros Heq Hm. rewrite LoginEnd_handleAuth.
  unfold completeLogin, Exchange, Verify, tokenToJSONString. exec.
  rewrite Hcookie. cbn. rewrite String.eqb_refl. cbn.
  rewrite Hnonce. cbn. rewrite Hexchange. cbn.
  rewrite Hextra. cbn. rewrite Hverify. cbn.
  rewrite Heq, String.eqb_refl. cbn. rewrite Hm. reflexivity.
Qed.

End Verified.

End Completion.

(** C1, as amended: for every LoginEnd request whose callback carries
    non-empty state and code, if the callback's state differs from the value
    of the state cookie, the handler responds 400 Bad Request, unless the
    callback also carries the error login_required, which is answered 401
    before the cookie is looked at; in every case the handler is aborted, the
    session is unchanged and no session operation is performed. *)
Theorem LoginEnd_state_mismatch (w : Collaborators) (o : OidcAgent)
    (c : Context) (data : LoginEndRequest) (u : url.URL)
    (originalState : string) :
  decode_LoginEndRequest w (http.Body (Request c)) = Ok data ->
  url_Parse w (RequestURL data) = Ok u ->
  url.Get (url.Query u) "state" <> "" ->
  url.Get (url.Query u) "code" <> "" ->
  http.find_cookie "state" (http.Cookies (Request c)) = Ok originalState ->
  url.Get (url.Query u) "state" <> originalState ->
  let c' := run (LoginEnd w o) c in
  status (Writer c') =
    (if String.eqb (url.Get (url.Query u) "error") "login_required"
     then http.StatusUnauthorized else http.StatusBadRequest)
  /\ aborted (Writer c') = true
  /\ session c' = session c
  /\ new_events c c' = [].
Proof.
  intros Hd Hu Hs Hc Hk Hne c'. subst c'.
  destruct (String.eqb_spec (url.Get (url.Query u) "error") "") as [He|He].
  - rewrite (completion_state_mismatch w o c data u Hd Hu Hs Hc He _ Hk Hne).
    rewrite He. cbn. repeat split. apply new_events_nil. reflexivity.
  - rewrite (LoginEnd_failed w o c data u Hd Hu Hs He).
    cbn. repeat split. apply new_events_nil. reflexivity.
Qed.

Lemma LoginEnd_state_mismatch_witness :
  let w := Scenario.world "N" true in
  let c := Scenario.request "https://gateway.example/login?state=S&code=ABC"
             [("state", "S2"); ("nonce", "N")] Scenario.empty_session 1000 in
  status (Writer (run (LoginEnd w Scenario.agent) c)) = 400
  /\ session (run (LoginEnd w Scenario.agent) c) = session c.
Proof.
  intros w c.
  destruct (LoginEnd_state_mismatch w Scenario.agent c
              {| RequestURL := http.Body (Request c) |}
              (Scenario.callback [("state", ["S"]); ("code", ["ABC"])]) "S2")
    as (Hst & _ & Hse & _).
  all: try reflexivity.
  all: try (vm_compute; discriminate).
  split; [exact Hst | exact Hse].
Defined.

(** C1, as stated, fails: a callback with state, code and the error
    login_required, sent with a state cookie of another value, is answered
    401 and not 400. *)
Lemma state_mismatch_with_login_required : ~ state_mismatch_always_400.
Proof.
  intros H.
  destruct (H (Scenario.world "N" true) Scenario.agent
    (Scenario.request
       "https://gateway.example/login?state=S&code=ABC&error=login_required"
       [("state", "S2"); ("nonce", "N")] Scenario.empty_session 1000)
    {| RequestURL :=
         "https://gateway.example/login?state=S&code=ABC&error=login_required" |}
    (Scenario.callback [("state", ["S"]); ("code", ["ABC"]);
                        ("error", ["login_required"])])
    "S2") as [Hst _];
    [ reflexivity | reflexivity | vm_compute; discriminate
    | vm_compute; discriminate | reflexivity | vm_compute; discriminate | ].
  vm_compute in Hst. discriminate Hst.
Qed.

(** C2: in a completion attempt (state and code set, no error) whose state
    matches the state cookie, whose code exchange succeeds and whose ID token
    verifies, an ID token nonce that differs from the nonce cookie is
    answered 400 Bad Request; nothing is written to the session (it is
    unchanged, and the only events are the exchange and the verification). *)
Theorem LoginEnd_nonce_mismatch (w : Collaborators) (o : OidcAgent)
    (c : Context) (data : LoginEndRequest) (u : url.URL)
    (nonce rawIDToken : string) (oauth2Token : oauth2.Token)
    (idToken : oidc.IDToken) :
  decode_LoginEndRequest w (http.Body (Request c)) = Ok data ->
  url_Parse w (RequestURL data) = Ok u ->
  url.Get (url.Query u) "state" <> "" ->
  url.Get (url.Query u) "code" <> "" ->
  url.Get (url.Query u) "error" = "" ->
  http.find_cookie "state" (http.Cookies (Request c)) =
    Ok (url.Get (url.Query u) "state") ->
  http.find_cookie "nonce" (http.Cookies (Request c)) = Ok nonce ->
  oauthConfig_Exchange w (insecureTLS o) (url.Get (url.Query u) "code") =
    Ok oauth2Token ->
  oauth2.as_string (oauth2.Extra oauth2Token "id_token") = Some rawIDToken ->
  verifier_Verify w (insecureTLS o) rawIDToken = Ok idToken ->
  oidc.Nonce_ idToken <> nonce ->
  let c' := run (LoginEnd w o) c in
  status (Writer c') = http.StatusBadRequest
  /\ aborted (Writer c') = true
  /\ session c' = session c
  /\ new_events c c' =
       [EvExchange (url.Get (url.Query u) "code"); EvVerify rawIDToken]
  /\ forallb (fun e => negb (is_session_write e)) (new_events c c') = true.
Proof.
  intros Hd Hu Hs Hc He Hk Hn Hx Hextra Hv Hne c'. subst c'.
  rewrite (completion_nonce_mismatch w o c data u Hd Hu Hs Hc He
             nonce oauth2Token rawIDToken idToken Hk Hn Hx Hextra Hv Hne).
  assert (Hev : new_events c
            (with_Writer
               (add_error "nonce did not match"
                  (set_aborted
                     (set_status http.StatusBadRequest
                        (Writer (verified_context c (url.Get (url.Query u) "code")
                                   rawIDToken)))))
               (verified_context c (url.Get (url.Query u) "code") rawIDToken))
          = [EvExchange (url.Get (url.Query u) "code"); EvVerify rawIDToken]).
  { apply new_events_app. cbn. rewrite <- app_assoc. reflexivity. }
  rewrite Hev. repeat split.
Qed.

Lemma LoginEnd_nonce_mismatch_witness :
  let w := Scenario.world "N-replayed" true in
  let c := Scenario.request "https://gateway.example/login?state=S&code=ABC"
             [("state", "S"); ("nonce", "N")] Scenario.empty_session 1000 in
  status (Writer (run (LoginEnd w Scenario.agent) c)) = 400
  /\ session (run (LoginEnd w Scenario.agent) c) = session c.
Proof.
  intros w c.
  destruct (LoginEnd_nonce_mismatch w Scenario.agent c
              {| RequestURL := http.Body (Request c) |}
              (Scenario.callback [("state", ["S"]); ("code", ["ABC"])])
              "N" "raw-id-token" (Scenario.token "access-1" 5000000000000)
              {| oidc.Nonce_ := "N-replayed"; oidc.Subject := "alice";
                 oidc.claims := Some "{sub: alice}" |})
    as (Hst & _ & Hse & _).
  all: try reflexivity.
  all: try (vm_compute; discriminate).
  split; [exact Hst | exact Hse].
Defined.

(** C4, as amended: in a completion attempt (state and code set, no error)
    a cookie is cleared (empty value, max-age -1) once it has been read and
    before the comparison that uses it: the state cookie before the state
    comparison, the nonce cookie only after the state matched, before the
    exchange and the nonce comparison.  So: when the state cookie is absent
    no cookie is cleared; on the state-mismatch abort (400) and when the
    nonce cookie is absent only the state cookie is cleared; once both are
    read, both are cleared on every outcome path. *)
Theorem LoginEnd_cookie_clearing (w : Collaborators) (o : OidcAgent)
    (c : Context) (data : LoginEndRequest) (u : url.URL) :
  decode_LoginEndRequest w (http.Body (Request c)) = Ok data ->
  url_Parse w (RequestURL data) = Ok u ->
  url.Get (url.Query u) "state" <> "" ->
  url.Get (url.Query u) "code" <> "" ->
  url.Get (url.Query u) "error" = "" ->
  let state := url.Get (url.Query u) "state" in
  let request_cookie name := http.find_cookie name (http.Cookies (Request c)) in
  let c' := run (LoginEnd w o) c in
  (forall e, request_cookie "state" = Err e ->
     cookies (Writer c') = cookies (Writer c))
  /\ (forall originalState,
        request_cookie "state" = Ok originalState -> state <> originalState ->
        status (Writer c') = http.StatusBadRequest
        /\ cookies (Writer c') = cookies (Writer c) ++ [cleared_cookie "state" c])
  /\ (forall e, request_cookie "state" = Ok state ->
        request_cookie "nonce" = Err e ->
        cookies (Writer c') = cookies (Writer c) ++ [cleared_cookie "state" c])
  /\ (forall nonce, request_cookie "state" = Ok state ->
        request_cookie "nonce" = Ok nonce ->
        cookies (Writer c') =
          cookies (Writer c) ++ [cleared_cookie "state" c; cleared_cookie "nonce" c])
  /\ (forall name, http.Value (cleared_cookie name c) = ""
                   /\ http.MaxAge (cleared_cookie name c) < 0).
Proof.
  intros Hd Hu Hs Hc He state request_cookie c'. subst c' request_cookie state.
  split; [|split; [|split; [|split]]].
  - intros e Hk.
    rewrite (completion_without_state_cookie w o c data u Hd Hu Hs Hc He e Hk).
    reflexivity.
  - intros originalState Hk Hne.
    rewrite (completion_state_mismatch w o c data u Hd Hu Hs Hc He _ Hk Hne).
    split; reflexivity.
  - intros e Hk Hn.
    rewrite (completion_without_nonce_cookie w o c data u Hd Hu Hs Hc He e Hk Hn).
    reflexivity.
  - intros nonce Hk Hn.
    exact (completion_clears_nonce w o c data u Hd Hu Hs Hc He nonce Hk Hn).
  - intros name. cbn. split; [reflexivity | lia].
Qed.

Lemma LoginEnd_cookie_clearing_witness :
  let w := Scenario.world "N" true in
  let c := Scenario.request "https://gateway.example/login?state=S&code=ABC"
             [("state", "S"); ("nonce", "N")] Scenario.empty_session 1000 in
  cookies (Writer (run (LoginEnd w Scenario.agent) c)) =
    [cleared_cookie "state" c; cleared_cookie "nonce" c].
Proof.
  intros w c.
  destruct (LoginEnd_cookie_clearing w Scenario.agent c
              {| RequestURL := http.Body (Request c) |}
              (Scenario.callback [("state", ["S"]); ("code", ["ABC"])]))
    as (_ & _ & _ & Hboth & _);
    [ reflexivity | reflexivity | vm_compute; discriminate
    | vm_compute; discriminate | reflexivity | ].
  exact (Hboth "N" eq_refl eq_refl).
Defined.

(** C4, as stated, fails: on the state-mismatch abort the response clears
    the state cookie only; the nonce cookie is never touched. *)
Lemma state_mismatch_keeps_nonce_cookie : ~ completion_clears_both_cookies.
Proof.
  intros H.
  destruct (H (Scenario.world "N" true) Scenario.agent
    (Scenario.request "https://gateway.example/login?state=S&code=ABC"
       [("state", "S2"); ("nonce", "N")] Scenario.empty_session 1000)
    {| RequestURL := "https://gateway.example/login?state=S&code=ABC" |}
    (Scenario.callback [("state", ["S"]); ("code", ["ABC"])]))
    as [_ Hnonce];
    [ reflexivity | reflexivity | vm_compute; discriminate
    | vm_compute; discriminate | ].
  vm_compute in Hnonce.
  destruct Hnonce as [Heq | []]. discriminate Heq.
Qed.

(** ** Refresh *)

Lemma rand_ReadFull_ok (n : nat) (c : Context) :
  (n <= length (rand_Reader c))%nat ->
  rand_ReadFull n c =
    Next (Ok (firstn n (rand_Reader c)))
         (with_rand_Reader (skipn n (rand_Reader c)) c).
Proof.
  intros Hlen. unfold rand_ReadFull.
  destruct (Nat.ltb_spec (length (rand_Reader c)) n) as [Hlt|_]; [lia|].
  reflexivity.
Qed.

Lemma generateNewSID_ok (c : Context) :
  (16 <= length (rand_Reader c))%nat ->
  generateNewSID c =
    Next (Ok (hex.EncodeToString (firstn 16 (rand_Reader c))))
         (with_rand_Reader (skipn 16 (rand_Reader c)) c).
Proof.
  intros Hlen. unfold generateNewSID, mbind, Handler_bind.
  rewrite (rand_ReadFull_ok 16 c Hlen). reflexivity.
Qed.

(** [Refresh] when the serialization of the refreshed token fails. *)
Lemma Refresh_marshal_failure (w : Collaborators) (o : OidcAgent) (c : Context)
    (tokenRaw e : string) (token newToken : oauth2.Token) :
  values (session c) !! TokenKey = Some tokenRaw ->
  json_Unmarshal_Token w tokenRaw = Ok token ->
  TokenSource_Token w (insecureTLS o) token = Ok newToken ->
  (16 <= length (rand_Reader c))%nat ->
  json_Marshal_Token w newToken = Err e ->
  run (Refresh w o) c =
    let c1 := with_rand_Reader (skipn 16 (rand_Reader c))
                (record (EvTokenSource token) (record (EvSessionGet TokenKey) c)) in
    with_Writer (set_aborted (set_status http.StatusBadRequest (Writer c))) c1.
Proof.
  intros Hget Hdec Hsrc Hlen Hm.
  unfold Refresh, JsonStringToToken, tokenToJSONString, prepareContext.
  exec. rewrite Hget. cbn. rewrite Hdec. cbn. rewrite Hsrc. cbn.
  rewrite generateNewSID_ok by exact Hlen. cbn.
  rewrite Hm. reflexivity.
Qed.

(** C10: in both LoginEnd and Refresh, when the JSON serialization of the
    freshly obtained token fails, the handler aborts with 400 Bad Request
    (not 500), and nothing is written to the session: it is unchanged, and
    the request performs no set, delete or save. *)
Theorem token_serialization_failure (w : Collaborators) (o : OidcAgent)
    (c : Context) :
  (forall (data : LoginEndRequest) (u : url.URL) (nonce rawIDToken e : string)
          (oauth2Token : oauth2.Token) (idToken : oidc.IDToken),
      decode_LoginEndRequest w (http.Body (Request c)) = Ok data ->
      url_Parse w (RequestURL data) = Ok u ->
      url.Get (url.Query u) "state" <> "" ->
      url.Get (url.Query u) "code" <> "" ->
      url.Get (url.Query u) "error" = "" ->
      http.find_cookie "state" (http.Cookies (Request c)) =
        Ok (url.Get (url.Query u) "state") ->
      http.find_cookie "nonce" (http.Cookies (Request c)) = Ok nonce ->
      oauthConfig_Exchange w (insecureTLS o) (url.Get (url.Query u) "code") =
        Ok oauth2Token ->
      oauth2.as_string (oauth2.Extra oauth2Token "id_token") = Some rawIDToken ->
      verifier_Verify w (insecureTLS o) rawIDToken = Ok idToken ->
      oidc.Nonce_ idToken = nonce ->
      json_Marshal_Token w oauth2Token = Err e ->
      let c' := run (LoginEnd w o) c in
      status (Writer c') = http.StatusBadRequest
      /\ aborted (Writer c') = true
      /\ session c' = session c
      /\ forallb (fun ev => negb (is_session_write ev)) (new_events c c') = true)
  /\
  (forall (tokenRaw e : string) (token newToken : oauth2.Token),
      values (session c) !! TokenKey = Some tokenRaw ->
      json_Unmarshal_Token w tokenRaw = Ok token ->
      TokenSource_Token w (insecureTLS o) token = Ok newToken ->
      (16 <= length (rand_Reader c))%nat ->
      json_Marshal_Token w newToken = Err e ->
      let c' := run (Refresh w o) c in
      status (Writer c') = http.StatusBadRequest
      /\ aborted (Writer c') = true
      /\ session c' = session c
      /\ forallb (fun ev => negb (is_session_write ev)) (new_events c c') = true).
Proof.
  split.
  - intros data u nonce rawIDToken e oauth2Token idToken
      Hd Hu Hs Hc He Hk Hn Hx Hextra Hv Heq Hm c'. subst c'.
    rewrite (completion_marshal_failure w o c data u Hd Hu Hs Hc He
               nonce oauth2Token rawIDToken idToken Hk Hn Hx Hextra Hv e Heq Hm).
    repeat split.
    erewrite new_events_app; [|cbn; rewrite <- app_assoc; reflexivity].
    reflexivity.
  - intros tokenRaw e token newToken Hget Hdec Hsrc Hlen Hm c'. subst c'.
    rewrite (Refresh_marshal_failure w o c tokenRaw e token newToken
               Hget Hdec Hsrc Hlen Hm).
    repeat split.
    erewrite new_events_app; [|cbn; rewrite <- app_assoc; reflexivity].
    reflexivity.
Qed.

Lemma token_serialization_failure_witness :
  let w := Scenario.world "N" false in
  let c1 := Scenario.request "https://gateway.example/login?state=S&code=ABC"
              [("state", "S"); ("nonce", "N")] Scenario.empty_session 1000 in
  let c2 := Scenario.request "" [] Scenario.logged_in_session 1000 in
  (status (Writer (run (LoginEnd w Scenario.agent) c1)) = 400
   /\ session (run (LoginEnd w Scenario.agent) c1) = session c1)
  /\ (status (Writer (run (Refresh w Scenario.agent) c2)) = 400
      /\ session (run (Refresh w Scenario.agent) c2) = session c2).
Proof.
  intros w c1 c2. split.
  - destruct (proj1 (token_serialization_failure w Scenario.agent c1)
                {| RequestURL := http.Body (Request c1) |}
                (Scenario.callback [("state", ["S"]); ("code", ["ABC"])])
                "N" "raw-id-token"
                "json: error calling MarshalJSON for type time.Time"
                (Scenario.token "access-1" 5000000000000)
                {| oidc.Nonce_ := "N"; oidc.Subject := "alice";
                   oidc.claims := Some "{sub: alice}" |})
      as (Hst & _ & Hse & _).
    all: try reflexivity.
    all: try (vm_compute; discriminate).
    split; [exact Hst | exact Hse].
  - destruct (proj2 (token_serialization_failure w Scenario.agent c2)
                "token:access-1"
                "json: error calling MarshalJSON for type time.Time"
                (Scenario.token "access-1" 5000000000000)
                (Scenario.token "access-2" 9000000000000))
      as (Hst & _ & Hse & _).
    all: try reflexivity.
    + vm_compute. lia.
    + split; [exact Hst | exact Hse].
Defined.

(** ** The reverse proxies *)

(** The request a proxy sends to the backend for the request of [c]. *)
Lemma ServeHTTP_forwards (w : Collaborators) (o : OidcAgent)
    (bearer : option oauth2.Token) (c : Context) :
  let req := {| br_Header := http.Header (Request c);
                br_Host := url.Host (backend o);
                br_URL_Scheme := url.Scheme (backend o);
                br_URL_Host := url.Host (backend o);
                br_URL_Path := http.proxyPath (Request c);
                br_Body := http.Body (Request c);
                br_Bearer := bearer |} in
  run (ServeHTTP w o bearer) c =
    with_Writer
      (set_body (Streamed (bresp_body (backend_RoundTrip w req)))
         (set_status (bresp_status (backend_RoundTrip w req)) (Writer c)))
      (record (EvBackend req) c).
Proof. reflexivity. Qed.

(** C3: the authenticated proxy answers a request whose session holds no
    token with 401 and sends nothing to the backend (the only event is the
    session lookup); the device-flow proxy performs no session operation at
    all: it forwards the request, without credentials, whatever the session
    holds, and leaves the session as it is. *)
Theorem proxy_session_check (w : Collaborators) (o : OidcAgent) (c : Context) :
  (values (session c) !! TokenKey = None ->
     let c' := run (CodeFlowProxy w o) c in
     status (Writer c') = http.StatusUnauthorized
     /\ aborted (Writer c') = true
     /\ new_events c c' = [EvSessionGet TokenKey]
     /\ forallb (fun e => negb (is_backend_call e)) (new_events c c') = true)
  /\ (let c' := run (DeviceFlowProxy w o) c in
      exists req : BackendRequest,
        new_events c c' = [EvBackend req]
        /\ br_Bearer req = None
        /\ br_URL_Path req = http.proxyPath (Request c)
        /\ status (Writer c') = bresp_status (backend_RoundTrip w req)
        /\ body (Writer c') = Streamed (bresp_body (backend_RoundTrip w req))
        /\ forallb (fun e => negb (is_session_op e)) (new_events c c') = true)
  /\ (forall s : Session,
        run (DeviceFlowProxy w o) (with_session s c) =
        with_session s (run (DeviceFlowProxy w o) c)).
Proof.
  split; [|split].
  - intros Hnone c'. subst c'.
    assert (E : run (CodeFlowProxy w o) c =
                with_Writer
                  (set_aborted (set_status http.StatusUnauthorized (Writer c)))
                  (record (EvSessionGet TokenKey) c)).
    { unfold CodeFlowProxy. exec. rewrite Hnone. reflexivity. }
    rewrite E. cbn.
    rewrite (new_events_app c _ [EvSessionGet TokenKey]) by reflexivity.
    repeat split.
  - intros c'. subst c'. unfold DeviceFlowProxy.
    rewrite ServeHTTP_forwards. cbn zeta.
    eexists.
    erewrite new_events_app by reflexivity.
    repeat split.
  - intros s. unfold DeviceFlowProxy.
    rewrite !ServeHTTP_forwards. reflexivity.
Qed.

Lemma proxy_session_check_witness :
  let w := Scenario.world "N" true in
  let c := Scenario.request "" [] Scenario.empty_session 1000 in
  status (Writer (run (CodeFlowProxy w Scenario.agent) c)) = 401
  /\ new_events c (run (CodeFlowProxy w Scenario.agent) c) = [EvSessionGet "token"]
  /\ status (Writer (run (DeviceFlowProxy w Scenario.agent) c)) = 200.
Proof.
  intros w c.
  destruct (proxy_session_check w Scenario.agent c) as (Hcode & Hdev & _).
  destruct (Hcode eq_refl) as (Hst & _ & Hev & _).
  split; [exact Hst | split; [exact Hev | reflexivity]].
Defined.

(** ** CheckAuth *)

(** Once the expiry of a token has passed, the token is not valid. *)
Lemma expired_not_Valid (t : oauth2.Token) (now : time.Time) :
  time.IsZero (oauth2.Expiry t) = false ->
  oauth2.Expiry t < now ->
  oauth2.Valid t now = false.
Proof.
  intros Hz Hlt. unfold oauth2.Valid, oauth2.expired. rewrite Hz.
  unfold time.Before, time.Add, oauth2.expiryDelta, time.Second.
  destruct (Z.ltb_spec (oauth2.Expiry t + - (10 * 1000000000)) now) as [_|Hge];
    [|lia].
  cbn. apply andb_false_r.
Qed.

Lemma CheckAuth_decoded (w : Collaborators) (c : Context) (tokenRaw : string)
    (token : oauth2.Token) :
  values (session c) !! TokenKey = Some tokenRaw ->
  json_Unmarshal_Token w tokenRaw = Ok token ->
  run (CheckAuth w) c =
    let c1 := record (EvSessionGet TokenKey) c in
    if oauth2.Valid token (timeNow c) then
      with_Writer
        (set_body (CheckAuthResponse "success" "User is authenticated.")
           (set_status http.StatusOK (Writer c))) c1
    else
      with_Writer
        (set_body (CheckAuthResponse "failure" "User is not authenticated.")
           (set_status http.StatusUnauthorized (Writer c))) c1.
Proof.
  intros Hget Hdec. unfold CheckAuth, JsonStringToToken. exec.
  rewrite Hget. cbn. rewrite Hdec. cbn.
  destruct (oauth2.Valid token (timeNow c)); reflexivity.
Qed.

(** C7: on a session holding a decodable token, CheckAuth answers 200 with
    status "success" when the token's local validity check passes, and 401
    with status "failure" and a message when it does not, in particular once
    the token's expiry has passed (for a token that has one: the zero time
    stands for no expiry); either way the only thing it does is read the
    session (no call to the provider).  A session without a token entry is
    answered 401. *)
Theorem CheckAuth_is_local (w : Collaborators) (c : Context) :
  let c' := run (CheckAuth w) c in
  (values (session c) !! TokenKey = None ->
     status (Writer c') = http.StatusUnauthorized)
  /\ (forall (tokenRaw : string) (token : oauth2.Token),
        values (session c) !! TokenKey = Some tokenRaw ->
        json_Unmarshal_Token w tokenRaw = Ok token ->
        (oauth2.Valid token (timeNow c) = true ->
           status (Writer c') = http.StatusOK
           /\ body (Writer c') =
                CheckAuthResponse "success" "User is authenticated.")
        /\ (oauth2.Valid token (timeNow c) = false ->
           status (Writer c') = http.StatusUnauthorized
           /\ body (Writer c') =
                CheckAuthResponse "failure" "User is not authenticated.")
        /\ (time.IsZero (oauth2.Expiry token) = false ->
            oauth2.Expiry token < timeNow c ->
           status (Writer c') = http.StatusUnauthorized
           /\ body (Writer c') =
                CheckAuthResponse "failure" "User is not authenticated.")
        /\ new_events c c' = [EvSessionGet TokenKey]
        /\ forallb (fun e => negb (is_provider_call e)) (new_events c c') = true).
Proof.
  intros c'. subst c'. split.
  - intros Hnone. unfold CheckAuth. exec. rewrite Hnone. reflexivity.
  - intros tokenRaw token Hget Hdec.
    rewrite (CheckAuth_decoded w c tokenRaw token Hget Hdec). cbn zeta.
    pose proof (expired_not_Valid token (timeNow c)) as Hexpired.
    destruct (oauth2.Valid token (timeNow c)); cbn;
      rewrite (new_events_app c _ [EvSessionGet TokenKey]) by reflexivity.
    + split; [intros _; split; reflexivity|].
      split; [discriminate|].
      split; [|split; reflexivity].
      intros Hz Hlt. discriminate (Hexpired Hz Hlt).
    + split; [discriminate|].
      split; [intros _; split; reflexivity|].
      split; [intros _ _; split; reflexivity|].
      split; reflexivity.
Qed.

Lemma CheckAuth_is_local_witness :
  let w := Scenario.world "N" true in
  let before := Scenario.request "" [] Scenario.logged_in_session 4000000000000 in
  let after := Scenario.request "" [] Scenario.logged_in_session 5000000000001 in
  status (Writer (run (CheckAuth w) before)) = 200
  /\ status (Writer (run (CheckAuth w) after)) = 401
  /\ new_events after (run (CheckAuth w) after) = [EvSessionGet "token"].
Proof.
  intros w before after.
  destruct (proj2 (CheckAuth_is_local w before) "token:access-1"
              (Scenario.token "access-1" 5000000000000) eq_refl eq_refl)
    as (Hvalid & _).
  destruct (proj2 (CheckAuth_is_local w after) "token:access-1"
              (Scenario.token "access-1" 5000000000000) eq_refl eq_refl)
    as (_ & _ & Hexpired & Hev & _).
  split; [exact (proj1 (Hvalid eq_refl))|].
  split; [|exact Hev].
  apply Hexpired; [reflexivity | vm_compute; reflexivity].
Defined.

(** ** Logout, and the requests after it *)

(** Without the entry they look up, the session operations answer 401 and
    leave the session alone. *)
Lemma session_handler_unauthorized (w : Collaborators) (o : OidcAgent)
    (op : SessionOp) (c : Context) :
  values (session c) !! TokenKey = None ->
  values (session c) !! IDTokenKey = None ->
  status (Writer (run (session_handler w o op) c)) = http.StatusUnauthorized
  /\ session (run (session_handler w o op) c) = session c.
Proof.
  intros Htoken Hid.
  destruct op; unfold session_handler.
  - unfold UserInfo. exec. rewrite Htoken. split; reflexivity.
  - unfold Claims. exec. rewrite Hid. split; reflexivity.
  - unfold Refresh. exec. rewrite Htoken. split; reflexivity.
  - unfold CheckAuth. exec. rewrite Htoken. split; reflexivity.
Qed.

(** A logout that finds the ID token and whose save succeeds leaves
    neither entry in the store, whether or not the logout URL can be
    built afterwards. *)
Lemma Logout_persists (w : Collaborators) (c : Context) :
  is_Some (values (session c) !! IDTokenKey) ->
  store_fails (session c) = false ->
  logged_out (session (run (Logout w) c)).
Proof.
  intros [idToken Hid] Hstore.
  unfold Logout. exec. rewrite Hid. cbn. rewrite Hstore. cbn.
  assert (Hgone : let v := delete TokenKey (delete IDTokenKey (values (session c))) in
                  v !! TokenKey = None /\ v !! IDTokenKey = None).
  { cbn zeta. split.
    - apply lookup_delete_eq.
    - rewrite lookup_delete_ne by discriminate. apply lookup_delete_eq. }
  destruct (agent_LogoutURL w idToken); cbn; exact Hgone.
Qed.

(** A logout answered 200 is such a logout. *)
Lemma Logout_200 (w : Collaborators) (c : Context) :
  status (Writer (run (Logout w) c)) = http.StatusOK ->
  is_Some (values (session c) !! IDTokenKey) /\ store_fails (session c) = false.
Proof.
  unfold Logout. exec.
  destruct (values (session c) !! IDTokenKey) as [idToken|]; cbn;
    [|discriminate].
  destruct (store_fails (session c)); cbn; [discriminate|].
  intros _. split; [eexists; reflexivity | reflexivity].
Qed.

Lemma serve_logged_out (w : Collaborators) (o : OidcAgent)
    (reqs : list (SessionOp * http.Request * time.Time)) :
  forall prev : Context,
    logged_out (session prev) ->
    Forall (fun st => st = http.StatusUnauthorized) (serve w o reqs prev).
Proof.
  induction reqs as [|[[op req] now] rest IH]; intros prev [Htoken Hid];
    cbn [serve].
  - constructor.
  - destruct (session_handler_unauthorized w o op (next_request req now prev))
      as [Hst Hse]; [exact Htoken | exact Hid |].
    constructor; [exact Hst|].
    apply IH. rewrite Hse. split; [exact Htoken | exact Hid].
Qed.

(** C6: after a Logout that completed (it found the ID token, deleted the
    token and ID-token entries and persisted the session), every later
    UserInfo, Claims, Refresh or CheckAuth request on that session, in any
    number and order, is answered 401 Unauthorized. *)
Theorem Logout_then_unauthorized (w : Collaborators) (o : OidcAgent)
    (c : Context) (reqs : list (SessionOp * http.Request * time.Time)) :
  is_Some (values (session c) !! IDTokenKey) ->
  store_fails (session c) = false ->
  Forall (fun st => st = http.StatusUnauthorized)
    (serve w o reqs (run (Logout w) c)).
Proof.
  intros Hid Hstore.
  apply serve_logged_out.
  exact (Logout_persists w c Hid Hstore).
Qed.

Lemma Logout_then_unauthorized_witness :
  let w := Scenario.world "N" true in
  let c := Scenario.request "" [] Scenario.logged_in_session 1000 in
  let req := Request c in
  status (Writer (run (Logout w) c)) = 200
  /\ Forall (fun st => st = 401)
       (serve w Scenario.agent
          [(OpUserInfo, req, 2000); (OpClaims, req, 3000);
           (OpRefresh, req, 4000); (OpCheckAuth, req, 5000)]
          (run (Logout w) c)).
Proof.
  intros w c req. split; [reflexivity|].
  exact (Logout_then_unauthorized w Scenario.agent c
           [(OpUserInfo, req, 2000); (OpClaims, req, 3000);
            (OpRefresh, req, 4000); (OpCheckAuth, req, 5000)]
           (ex_intro _ "raw-id-token" eq_refl) eq_refl).
Defined.

(** ** Claims *)

(** Decoding into a target that is not a pointer fails, whatever the data
    and the decoder. *)
Lemma Claims_into_NonPointer {A} (decode : string -> result A)
    (raw_claims : option string) :
  is_ok (Claims_into decode raw_claims json.NonPointer) = false.
Proof. destruct raw_claims; reflexivity. Qed.

(** C9 fails on the code: whenever the session holds a raw ID token that
    verifies, [Claims] answers 500 and writes no body, because the claims
    are decoded into the map variable itself instead of its address; it
    never answers 200 with the claims.  (No ID token gives 401 and a failed
    verification 500, as the claim says.) *)
Theorem Claims_never_succeeds (w : Collaborators) (o : OidcAgent) (c : Context) :
  let c' := run (Claims w o) c in
  (values (session c) !! IDTokenKey = None ->
     status (Writer c') = http.StatusUnauthorized)
  /\ (forall idTokenRaw e,
        values (session c) !! IDTokenKey = Some idTokenRaw ->
        verifier_Verify w (insecureTLS o) idTokenRaw = Err e ->
        status (Writer c') = http.StatusInternalServerError)
  /\ (forall idTokenRaw idToken,
        values (session c) !! IDTokenKey = Some idTokenRaw ->
        verifier_Verify w (insecureTLS o) idTokenRaw = Ok idToken ->
        status (Writer c') = http.StatusInternalServerError
        /\ body (Writer c') = body (Writer c)).
Proof.
  intros c'. subst c'. unfold Claims, Verify, prepareContext. exec.
  split; [|split].
  - intros ->. reflexivity.
  - intros idTokenRaw e -> Hv. cbn. rewrite Hv. reflexivity.
  - intros idTokenRaw idToken -> Hv. cbn. rewrite Hv. cbn.
    pose proof (Claims_into_NonPointer (decode_claims_map w) (oidc.claims idToken)) as Hfail.
    destruct (Claims_into (decode_claims_map w) (oidc.claims idToken) json.NonPointer);
      [discriminate Hfail|].
    split; reflexivity.
Qed.

Lemma Claims_never_succeeds_witness :
  let w := Scenario.world "N" true in
  let c := Scenario.request "" [] Scenario.logged_in_session 1000 in
  verifier_Verify w false "raw-id-token" =
    Ok {| oidc.Nonce_ := "N"; oidc.Subject := "alice";
          oidc.claims := Some "{sub: alice}" |}
  /\ status (Writer (run (Claims w Scenario.agent) c)) = 500
  /\ body (Writer (run (Claims w Scenario.agent) c)) = NoBody.
Proof.
  intros w c. split; [reflexivity|].
  exact (proj2 (proj2 (Claims_never_succeeds w Scenario.agent c))
           "raw-id-token"
           {| oidc.Nonce_ := "N"; oidc.Subject := "alice";
              oidc.claims := Some "{sub: alice}" |}
           eq_refl eq_refl).
Defined.

(** ** LoginStart *)

(** Induction on lists three elements at a time, as the encoder reads
    them. *)
Lemma list_ind3 {A} (P : list A -> Prop) :
  P [] ->
  (forall a, P [a]) ->
  (forall a b, P [a; b]) ->
  (forall a b d l, P l -> P (a :: b :: d :: l)) ->
  forall l, P l.
Proof.
  intros H0 H1 H2 H3.
  assert (Hall : forall n l, (length l <= n)%nat -> P l).
  { induction n as [|n IH]; intros l Hlen.
    - destruct l; [exact H0 | cbn in Hlen; lia].
    - destruct l as [|a [|b [|d l]]]; auto.
      apply H3. apply IH. cbn in Hlen. lia. }
  intros l. apply (Hall (length l)). lia.
Qed.

(** Every character the encoder writes is one that query escaping leaves
    alone. *)
Lemma sextet_unreserved (val shift : N) :
  url.shouldEscape (base64.sextet val shift) = false.
Proof.
  unfold base64.sextet.
  assert (Hlt : (N.land (N.shiftr val shift) 63 < 64)%N).
  { change 63%N with (N.ones 6). rewrite N.land_ones.
    apply N.mod_upper_bound. discriminate. }
  remember (N.land (N.shiftr val shift) 63) as i eqn:Hi. clear Hi.
  unfold base64.encode.
  assert (Hn : (N.to_nat i < 64)%nat) by lia.
  remember (N.to_nat i) as n eqn:Hneq. clear Hneq Hlt i.
  do 64 (destruct n as [|n]; [reflexivity|]). lia.
Qed.

Lemma Encode_unreserved (src : list Byte.byte) :
  Forall (fun a => url.shouldEscape a = false) (base64.Encode src).
Proof.
  induction src as [|a|a b|a b d l IH] using list_ind3; cbn [base64.Encode].
  - constructor.
  - repeat constructor; apply sextet_unreserved.
  - repeat constructor; apply sextet_unreserved.
  - repeat (constructor; [apply sextet_unreserved|]). exact IH.
Qed.

Lemma QueryEscape_unreserved (l : list ascii) :
  Forall (fun a => url.shouldEscape a = false) l ->
  url.QueryEscape (string_of_list_ascii l) = string_of_list_ascii l.
Proof.
  induction 1 as [|a l Ha _ IH]; cbn.
  - reflexivity.
  - rewrite Ha, IH. reflexivity.
Qed.

(** The cookie value of a base64url string is the string itself. *)
Lemma QueryEscape_base64 (src : list Byte.byte) :
  url.QueryEscape (base64.RawURLEncoding_EncodeToString src) =
  base64.RawURLEncoding_EncodeToString src.
Proof. apply QueryEscape_unreserved, Encode_unreserved. Qed.

Lemma Encode_length (src : list Byte.byte) :
  length (base64.Encode src) = ((4 * length src + 2) / 3)%nat.
Proof.
  induction src as [|a|a b|a b d l IH] using list_ind3; cbn [base64.Encode length].
  - reflexivity.
  - reflexivity.
  - reflexivity.
  - rewrite IH.
    replace (4 * S (S (S (length l))) + 2)%nat
      with (4 * length l + 2 + 4 * 3)%nat by lia.
    rewrite Nat.div_add by discriminate. lia.
Qed.

Lemma length_string_of_list_ascii (l : list ascii) :
  String.length (string_of_list_ascii l) = length l.
Proof. induction l as [|a l IH]; cbn; [reflexivity | rewrite IH; reflexivity]. Qed.

(** Sixteen bytes are written as twenty-two characters. *)
Lemma EncodeToString_16 (src : list Byte.byte) :
  length src = 16%nat ->
  String.length (base64.RawURLEncoding_EncodeToString src) = 22%nat.
Proof.
  intros Hlen. unfold base64.RawURLEncoding_EncodeToString.
  rewrite length_string_of_list_ascii, Encode_length, Hlen. reflexivity.
Qed.

Lemma EncodeToString_nonempty (src : list Byte.byte) :
  src <> [] -> base64.RawURLEncoding_EncodeToString src <> "".
Proof.
  intros Hne. unfold base64.RawURLEncoding_EncodeToString.
  destruct src as [|a [|b [|d l]]]; [congruence| | |]; cbn; discriminate.
Qed.

Lemma randString_ok (n : nat) (c : Context) :
  (n <= length (rand_Reader c))%nat ->
  randString n c =
    Next (Ok (base64.RawURLEncoding_EncodeToString (firstn n (rand_Reader c))))
         (with_rand_Reader (skipn n (rand_Reader c)) c).
Proof.
  intros Hlen. unfold randString, mbind, Handler_bind.
  rewrite (rand_ReadFull_ok n c Hlen). reflexivity.
Qed.

(** A random string that was generated is the encoding of the next [n]
    bytes of the entropy source, which are consumed. *)
Lemma randString_inv (n : nat) (c c1 : Context) (s : string) :
  randString n c = Next (Ok s) c1 ->
  (n <= length (rand_Reader c))%nat
  /\ s = base64.RawURLEncoding_EncodeToString (firstn n (rand_Reader c))
  /\ c1 = with_rand_Reader (skipn n (rand_Reader c)) c.
Proof.
  unfold randString, rand_ReadFull, mbind, Handler_bind, mret, Handler_ret.
  destruct (Nat.ltb_spec (length (rand_Reader c)) n) as [Hlt|Hge]; intros H.
  - discriminate H.
  - injection H as <- <-. auto.
Qed.

(** The parameters of the authorization URL. *)
Lemma AuthCodeURL_params (cfg : oauth2.Config) (state nonce : string) :
  state <> "" ->
  let url := oauth2.AuthCodeURL cfg state [oidc.Nonce nonce] in
  url.Get (oauth2.Params url) "state" = state
  /\ url.Get (oauth2.Params url) "nonce" = nonce.
Proof.
  intros Hne. cbn zeta.
  unfold oauth2.AuthCodeURL, oidc.Nonce, url.Get, url.Set_. cbn.
  rewrite (eqb_false_of_neq _ _ Hne). unfold url.Set_. split.
  - rewrite lookup_insert_ne by discriminate.
    rewrite lookup_insert_eq. reflexivity.
  - rewrite lookup_insert_eq. reflexivity.
Qed.

(** C8: in a LoginStart call in which both random generations succeed,
    state and nonce are the base64url encodings of sixteen bytes each, read
    one after the other from the entropy source (twenty-two characters
    each); the response sets a state
    and a nonce cookie holding exactly these values (max-age 3600 seconds,
    SameSite=Strict, path "/"), and the authorization URL it returns (200)
    carries the same values as its state and nonce parameters. *)
Theorem LoginStart_csrf_pair (o : OidcAgent) (c c1 c2 : Context)
    (state nonce : string) :
  randString 16 c = Next (Ok state) c1 ->
  randString 16 c1 = Next (Ok nonce) c2 ->
  let c' := run (LoginStart o) c in
  (exists b1 b2 : list Byte.byte,
      length b1 = 16%nat /\ length b2 = 16%nat
      /\ rand_Reader c = b1 ++ b2 ++ rand_Reader c2
      /\ state = base64.RawURLEncoding_EncodeToString b1
      /\ nonce = base64.RawURLEncoding_EncodeToString b2)
  /\ (String.length state = 22%nat /\ String.length nonce = 22%nat)
  /\ status (Writer c') = http.StatusOK
  /\ cookies (Writer c') =
       cookies (Writer c) ++
         [csrf_cookie "state" state c; csrf_cookie "nonce" nonce c]
  /\ exists url : oauth2.AuthorizationURL,
       body (Writer c') = LoginStartResponse url
       /\ url.Get (oauth2.Params url) "state" = state
       /\ url.Get (oauth2.Params url) "nonce" = nonce.
Proof.
  intros Hstate Hnonce c'. subst c'.
  destruct (randString_inv 16 c c1 state Hstate) as (Hlen1 & Es & E1).
  destruct (randString_inv 16 c1 c2 nonce Hnonce) as (Hlen2 & En & E2).
  assert (Hqs : url.QueryEscape state = state)
    by (rewrite Es; apply QueryEscape_base64).
  assert (Hqn : url.QueryEscape nonce = nonce)
    by (rewrite En; apply QueryEscape_base64).
  assert (Hrun : run (LoginStart o) c =
    with_Writer
      (set_body
         (LoginStartResponse
            (oauth2.AuthCodeURL (oauthConfig o) state [oidc.Nonce nonce]))
         (set_status http.StatusOK
            (add_cookie (csrf_cookie "nonce" nonce c)
               (add_cookie (csrf_cookie "state" state c) (Writer c)))))
      (with_sameSite http.SameSiteStrictMode c2)).
  { unfold LoginStart. exec. rewrite Hstate. cbn. rewrite Hnonce. cbn.
    unfold csrf_cookie. rewrite E2, E1. cbn.
    rewrite Hqs, Hqn. reflexivity. }
  assert (Hl1 : length (firstn 16 (rand_Reader c)) = 16%nat)
    by (rewrite length_firstn; lia).
  assert (Hl2 : length (firstn 16 (rand_Reader c1)) = 16%nat)
    by (rewrite length_firstn; lia).
  rewrite Hrun. cbn.
  split; [|split; [|split; [reflexivity|split]]].
  - exists (firstn 16 (rand_Reader c)), (firstn 16 (rand_Reader c1)).
    split; [exact Hl1|].
    split; [exact Hl2|].
    split; [|split; [exact Es | exact En]].
    rewrite E2. cbn [rand_Reader with_rand_Reader].
    rewrite firstn_skipn.
    rewrite E1. cbn [rand_Reader with_rand_Reader].
    rewrite firstn_skipn. reflexivity.
  - rewrite Es, En. split; apply EncodeToString_16; assumption.
  - rewrite <- app_assoc. reflexivity.
  - eexists. split; [reflexivity|].
    apply AuthCodeURL_params.
    rewrite Es. apply EncodeToString_nonempty.
    intros Hnil. rewrite Hnil in Hl1. discriminate Hl1.
Qed.

Lemma LoginStart_csrf_pair_witness :
  let c := Scenario.request "" [] Scenario.empty_session 1000 in
  let c' := run (LoginStart Scenario.agent) c in
  cookies (Writer c') =
    [csrf_cookie "state" "MDEyMzQ1Njc4OWFiY2RlZg" c;
     csrf_cookie "nonce" "RkVEQ0JBOTg3NjU0MzIxMA" c]
  /\ exists url : oauth2.AuthorizationURL,
       body (Writer c') = LoginStartResponse url
       /\ url.Get (oauth2.Params url) "state" = "MDEyMzQ1Njc4OWFiY2RlZg"
       /\ url.Get (oauth2.Params url) "nonce" = "RkVEQ0JBOTg3NjU0MzIxMA".
Proof.
  intros c c'.
  destruct (LoginStart_csrf_pair Scenario.agent c
              (with_rand_Reader (skipn 16 Scenario.entropy) c)
              (with_rand_Reader (skipn 32 Scenario.entropy) c)
              "MDEyMzQ1Njc4OWFiY2RlZg" "RkVEQ0JBOTg3NjU0MzIxMA"
              eq_refl eq_refl)
    as (_ & _ & _ & Hcookies & Hurl).
  split; [exact Hcookies | exact Hurl].
Defined.

(** ** LoginEnd: the remaining outcomes *)



(** The status poll: a callback without a state, or with a state but
    neither code nor error, runs no callback logic.  LoginEnd answers 200,
    not handled, and reports a login exactly when the session holds a
    token; it only reads the session. *)
Theorem LoginEnd_poll (w : Collaborators) (o : OidcAgent)
    (c : Context) (data : LoginEndRequest) (u : url.URL) :
  decode_LoginEndRequest w (http.Body (Request c)) = Ok data ->
  url_Parse w (RequestURL data) = Ok u ->
  url.Get (url.Query u) "state" = ""
  \/ (url.Get (url.Query u) "code" = "" /\ url.Get (url.Query u) "error" = "") ->
  let c' := run (LoginEnd w o) c in
  status (Writer c') = http.StatusOK
  /\ body (Writer c') =
       LoginEndResponse false
         (match values (session c) !! TokenKey with
          | Some _ => true
          | None => false
          end)
  /\ session c' = session c
  /\ cookies (Writer c') = cookies (Writer c)
  /\ new_events c c' = [EvSessionGet TokenKey].
Proof.
  intros Hd Hu Hpoll c'. subst c'.
  assert (Hrun : run (LoginEnd w o) c =
    with_Writer
      (set_body
         (LoginEndResponse false
            (match values (session c) !! TokenKey with
             | Some _ => true
             | None => false
             end))
         (set_status http.StatusOK (Writer c)))
      (record (EvSessionGet TokenKey) c)).
  { unfold LoginEnd, BindJSON, isLoggedIn. exec.
    rewrite Hd. cbn. rewrite Hu. cbn.
    destruct Hpoll as [-> | [-> ->]]; cbn.
    - reflexivity.
    - rewrite !andb_false_r. reflexivity. }
  rewrite Hrun. cbn.
  repeat split. apply new_events_app. reflexivity.
Qed.

Lemma LoginEnd_poll_witness :
  let w := Scenario.world "N" true in
  let c := Scenario.request "https://gateway.example/login?error=login_required"
             [] Scenario.logged_in_session 1000 in
  status (Writer (run (LoginEnd w Scenario.agent) c)) = 200
  /\ body (Writer (run (LoginEnd w Scenario.agent) c)) = LoginEndResponse false true.
Proof.
  intros w c.
  destruct (LoginEnd_poll w Scenario.agent c
              {| RequestURL := http.Body (Request c) |}
              (Scenario.callback [("error", ["login_required"])])
              eq_refl eq_refl (or_introl eq_refl))
    as (Hst & Hbody & _).
  split; [exact Hst | exact Hbody].
Defined.

(** * Further properties *)

(** ** The encodings of the random strings *)

(** Bitwise or of numbers that share no bit is their sum. *)
Lemma lor_disjoint_add (x y k : N) :
  (x mod 2 ^ k = 0)%N -> (y < 2 ^ k)%N -> N.lor x y = (x + y)%N.
Proof.
  intros Hx Hy.
  assert (Hland : N.land x y = 0%N).
  { apply N.bits_inj; intros n. rewrite N.land_spec, N.bits_0.
    destruct (N.ltb_spec n k) as [Hlt|Hge].
    - rewrite <- (N.mod_pow2_bits_low x k n Hlt), Hx, N.bits_0. reflexivity.
    - destruct (N.eq_dec y 0%N) as [->|Hy0]; [rewrite N.bits_0; apply andb_false_r|].
      rewrite (N.bits_above_log2 y n); [apply andb_false_r|].
      apply N.log2_lt_pow2 in Hy; lia. }
  rewrite <- (N.lxor_lor x y Hland). symmetry. apply N.add_nocarry_lxor. exact Hland.
Qed.

Lemma pack3 (a b c : N) :
  (a < 256)%N -> (b < 256)%N -> (c < 256)%N ->
  N.lor (N.lor (N.shiftl a 16) (N.shiftl b 8)) c = (a * 65536 + b * 256 + c)%N.
Proof.
  intros Ha Hb Hc. rewrite !N.shiftl_mul_pow2.
  change (2 ^ 16)%N with 65536%N. change (2 ^ 8)%N with 256%N.
  rewrite (lor_disjoint_add (a * 65536) (b * 256) 16).
  - rewrite (lor_disjoint_add _ c 8).
    + reflexivity.
    + change (2 ^ 8)%N with 256%N.
      replace (a * 65536 + b * 256)%N with ((a * 256 + b) * 256)%N by lia.
      apply N.Div0.mod_mul.
    + exact Hc.
  - change (2 ^ 16)%N with 65536%N. apply N.Div0.mod_mul.
  - change (2 ^ 16)%N with 65536%N. lia.
Qed.

Lemma sextet_index (v s : N) :
  N.land (N.shiftr v s) 63 = ((v / 2 ^ s) mod 64)%N.
Proof.
  change 63%N with (N.ones 6). rewrite N.land_ones, N.shiftr_div_pow2. reflexivity.
Qed.

Lemma sextets_of (s1 s2 s3 s4 : N) :
  (s1 < 64)%N -> (s2 < 64)%N -> (s3 < 64)%N -> (s4 < 64)%N ->
  let v := (s1 * 262144 + s2 * 4096 + s3 * 64 + s4)%N in
  ((v / 262144) mod 64 = s1 /\ (v / 4096) mod 64 = s2
   /\ (v / 64) mod 64 = s3 /\ (v / 1) mod 64 = s4)%N.
Proof.
  intros H1 H2 H3 H4 v. subst v.
  repeat split; zify; Z.to_euclidean_division_equations; lia.
Qed.

(** A number below [2^k * m] splits into a high part below [m] and a low part below [2^k]. *)
Lemma split_at (a d m : N) :
  (0 < d)%N -> (a < d * m)%N ->
  exists hi lo, (a = d * hi + lo /\ hi < m /\ lo < d)%N.
Proof.
  intros Hd Ha. exists (a / d)%N, (a mod d)%N.
  split; [apply N.div_mod; lia|].
  split; [apply N.Div0.div_lt_upper_bound; lia | apply N.mod_lt; lia].
Qed.

Lemma bytes_of_sextets (a b c : N) :
  (a < 256)%N -> (b < 256)%N -> (c < 256)%N ->
  let v := (a * 65536 + b * 256 + c)%N in
  exists s1 s2 s3 s4 : N,
    ((v / 262144) mod 64 = s1 /\ (v / 4096) mod 64 = s2
     /\ (v / 64) mod 64 = s3 /\ (v / 1) mod 64 = s4
     /\ a = 4 * s1 + s2 / 16
     /\ b = 16 * (s2 mod 16) + s3 / 4
     /\ c = 64 * (s3 mod 4) + s4)%N.
Proof.
  intros Ha Hb Hc v. subst v.
  destruct (split_at a 4 64) as (a1 & a0 & -> & Ha1 & Ha0); [lia..|].
  destruct (split_at b 16 16) as (b1 & b0 & -> & Hb1 & Hb0); [lia..|].
  destruct (split_at c 64 4) as (c1 & c0 & -> & Hc1 & Hc0); [lia..|].
  exists a1, (a0 * 16 + b1)%N, (b0 * 4 + c1)%N, c0.
  replace ((4 * a1 + a0) * 65536 + (16 * b1 + b0) * 256 + (64 * c1 + c0))%N
    with (a1 * 262144 + (a0 * 16 + b1) * 4096 + (b0 * 4 + c1) * 64 + c0)%N by lia.
  destruct (sextets_of a1 (a0 * 16 + b1) (b0 * 4 + c1) c0) as (E1 & E2 & E3 & E4);
    [lia..|].
  cbn zeta in *. 
  split; [exact E1|]. split; [exact E2|]. split; [exact E3|]. split; [exact E4|].
  clear E1 E2 E3 E4.
  repeat split; zify; Z.to_euclidean_division_equations; lia.
Qed.

Lemma encode_inj (i j : N) :
  (i < 64)%N -> (j < 64)%N -> base64.encode i = base64.encode j -> i = j.
Proof.
  intros Hi Hj E.
  assert (Htable :
    forallb (fun x => forallb (fun y =>
      implb (Ascii.eqb (base64.encode (N.of_nat x)) (base64.encode (N.of_nat y)))
            (Nat.eqb x y)) (seq 0 64)) (seq 0 64) = true) by (vm_compute; reflexivity).
  rewrite forallb_forall in Htable.
  specialize (Htable (N.to_nat i)). rewrite forallb_forall in Htable.
  specialize (Htable ltac:(apply in_seq; lia) (N.to_nat j) ltac:(apply in_seq; lia)).
  rewrite !N2Nat.id, E, Ascii.eqb_refl in Htable. cbn in Htable.
  apply Nat.eqb_eq in Htable. lia.
Qed.

Lemma sextet_inj (v v' s : N) :
  base64.sextet v s = base64.sextet v' s ->
  ((v / 2 ^ s) mod 64 = (v' / 2 ^ s) mod 64)%N.
Proof.
  unfold base64.sextet. rewrite !sextet_index. intros E.
  apply encode_inj in E; [exact E| |]; apply N.mod_lt; discriminate.
Qed.

Lemma to_N_lt (b : Byte.byte) : (Byte.to_N b < 256)%N.
Proof. pose proof (Byte.to_N_bounded b). lia. Qed.

Lemma to_N_inj (a b : Byte.byte) : Byte.to_N a = Byte.to_N b -> a = b.
Proof.
  intros E. pose proof (Byte.of_to_N a) as Ha. rewrite E, Byte.of_to_N in Ha.
  congruence.
Qed.

(** The bytes of a group are determined by its characters: the first byte by
    the first two, the second by the second and third, the third by the last
    two. *)
Lemma group_inj (a b c a' b' c' v v' : N) :
  (a < 256)%N -> (b < 256)%N -> (c < 256)%N ->
  (a' < 256)%N -> (b' < 256)%N -> (c' < 256)%N ->
  v = (a * 65536 + b * 256 + c)%N ->
  v' = (a' * 65536 + b' * 256 + c')%N ->
  base64.sextet v 18 = base64.sextet v' 18 ->
  base64.sextet v 12 = base64.sextet v' 12 ->
  a = a'
  /\ (base64.sextet v 6 = base64.sextet v' 6 ->
      b = b' /\ (base64.sextet v 0 = base64.sextet v' 0 -> c = c')).
Proof.
  intros Ha Hb Hc Ha' Hb' Hc' -> ->.
  destruct (bytes_of_sextets a b c Ha Hb Hc)
    as (s1 & s2 & s3 & s4 & E1 & E2 & E3 & E4 & Ea & Eb & Ec).
  destruct (bytes_of_sextets a' b' c' Ha' Hb' Hc')
    as (t1 & t2 & t3 & t4 & F1 & F2 & F3 & F4 & Fa & Fb & Fc).
  cbn zeta in *.
  intros H1 H2.
  apply sextet_inj in H1, H2.
  change (2 ^ 18)%N with 262144%N in H1. change (2 ^ 12)%N with 4096%N in H2.
  rewrite E1, F1 in H1. rewrite E2, F2 in H2. subst t1 t2.
  split; [congruence|].
  intros H3. apply sextet_inj in H3. change (2 ^ 6)%N with 64%N in H3.
  rewrite E3, F3 in H3. subst t3.
  split; [congruence|].
  intros H4. apply sextet_inj in H4. change (2 ^ 0)%N with 1%N in H4.
  rewrite E4, F4 in H4. subst t4.
  congruence.
Qed.

Lemma pack1 (a : N) : N.shiftl a 16 = (a * 65536 + 0 * 256 + 0)%N.
Proof. rewrite N.shiftl_mul_pow2. change (2 ^ 16)%N with 65536%N. lia. Qed.

Lemma pack2 (a b : N) :
  (b < 256)%N ->
  N.lor (N.shiftl a 16) (N.shiftl b 8) = (a * 65536 + b * 256 + 0)%N.
Proof.
  intros Hb. rewrite !N.shiftl_mul_pow2.
  change (2 ^ 16)%N with 65536%N. change (2 ^ 8)%N with 256%N.
  rewrite (lor_disjoint_add (a * 65536) (b * 256) 16).
  - lia.
  - change (2 ^ 16)%N with 65536%N. apply N.Div0.mod_mul.
  - change (2 ^ 16)%N with 65536%N. lia.
Qed.

Lemma Encode_inj (l l' : list Byte.byte) :
  base64.Encode l = base64.Encode l' -> l = l'.
Proof.
  revert l'.
  induction l as [|a|a b|a b d l IH] using list_ind3;
    intros [|a' [|b' [|d' l']]]; cbn [base64.Encode]; intros E;
    try discriminate E; try reflexivity.
  - injection E as E1 E2.
    destruct (group_inj (Byte.to_N a) 0 0 (Byte.to_N a') 0 0 _ _
                (to_N_lt a) eq_refl eq_refl (to_N_lt a') eq_refl eq_refl
                (pack1 _) (pack1 _) E1 E2) as [Ha _].
    apply to_N_inj in Ha. subst a'. reflexivity.
  - injection E as E1 E2 E3.
    destruct (group_inj (Byte.to_N a) (Byte.to_N b) 0 (Byte.to_N a') (Byte.to_N b') 0 _ _
                (to_N_lt a) (to_N_lt b) eq_refl (to_N_lt a') (to_N_lt b') eq_refl
                (pack2 _ _ (to_N_lt b)) (pack2 _ _ (to_N_lt b')) E1 E2) as [Ha Hb].
    destruct (Hb E3) as [Hb' _].
    apply to_N_inj in Ha, Hb'. subst a' b'. reflexivity.
  - injection E as E1 E2 E3 E4 E5.
    destruct (group_inj (Byte.to_N a) (Byte.to_N b) (Byte.to_N d)
                (Byte.to_N a') (Byte.to_N b') (Byte.to_N d') _ _
                (to_N_lt a) (to_N_lt b) (to_N_lt d) (to_N_lt a') (to_N_lt b') (to_N_lt d')
                (pack3 _ _ _ (to_N_lt a) (to_N_lt b) (to_N_lt d))
                (pack3 _ _ _ (to_N_lt a') (to_N_lt b') (to_N_lt d')) E1 E2) as [Ha Hb].
    destruct (Hb E3) as [Hb' Hd]. specialize (Hd E4).
    apply to_N_inj in Ha, Hb', Hd. subst a' b' d'.
    rewrite (IH l' E5). reflexivity.
Qed.

Lemma string_of_list_ascii_inj (l l' : list ascii) :
  string_of_list_ascii l = string_of_list_ascii l' -> l = l'.
Proof.
  intros E. apply (f_equal list_ascii_of_string) in E.
  rewrite !list_ascii_of_string_of_list_ascii in E. exact E.
Qed.

Lemma randString_cases (n : nat) (c : Context) :
  ((n <= length (rand_Reader c))%nat
   /\ randString n c =
        Next (Ok (base64.RawURLEncoding_EncodeToString (firstn n (rand_Reader c))))
             (with_rand_Reader (skipn n (rand_Reader c)) c))
  \/ ((length (rand_Reader c) < n)%nat
      /\ exists e, randString n c = Next (Err e) (with_rand_Reader [] c)).
Proof.
  destruct (Nat.le_gt_cases n (length (rand_Reader c))) as [Hle|Hgt].
  - left. split; [exact Hle | apply randString_ok; exact Hle].
  - right. split; [exact Hgt|]. eexists.
    unfold randString, rand_ReadFull, mbind, Handler_bind.
    destruct (Nat.ltb_spec (length (rand_Reader c)) n) as [_|Hge]; [|lia].
    reflexivity.
Qed.

(** [randString] is a faithful, cookie-safe encoding of the entropy it
    reads: the string it returns for [n] bytes has [(4n+2)/3] characters,
    query escaping leaves it as it is, and two calls return the same string
    exactly when they read the same [n] bytes. *)
Theorem randString_faithful (n : nat) (c c1 d d1 : Context) (s t : string) :
  randString n c = Next (Ok s) c1 ->
  randString n d = Next (Ok t) d1 ->
  String.length s = ((4 * n + 2) / 3)%nat
  /\ url.QueryEscape s = s
  /\ (s = t <-> firstn n (rand_Reader c) = firstn n (rand_Reader d)).
Proof.
  intros Hs Ht.
  destruct (randString_inv n c c1 s Hs) as (Hlen & -> & _).
  destruct (randString_inv n d d1 t Ht) as (_ & -> & _).
  split; [|split; [apply QueryEscape_base64|split]].
  - unfold base64.RawURLEncoding_EncodeToString.
    rewrite length_string_of_list_ascii, Encode_length, length_firstn.
    rewrite Nat.min_l by exact Hlen. reflexivity.
  - intros E. apply Encode_inj, string_of_list_ascii_inj, E.
  - intros ->. reflexivity.
Qed.

Lemma randString_faithful_witness :
  let c := Scenario.request "" [] Scenario.empty_session 1000 in
  let d := with_rand_Reader (skipn 16 Scenario.entropy) c in
  String.length "MDEyMzQ1Njc4OWFiY2RlZg" = 22%nat
  /\ ("MDEyMzQ1Njc4OWFiY2RlZg" = "RkVEQ0JBOTg3NjU0MzIxMA" <->
      firstn 16 (rand_Reader c) = firstn 16 (rand_Reader d)).
Proof.
  intros c d.
  destruct (randString_faithful 16 c d d
              (with_rand_Reader (skipn 32 Scenario.entropy) c)
              "MDEyMzQ1Njc4OWFiY2RlZg" "RkVEQ0JBOTg3NjU0MzIxMA"
              eq_refl eq_refl) as (Hlen & _ & Hiff).
  split; [exact Hlen | exact Hiff].
Defined.

(** *** Hexadecimal *)

Lemma digit_inj (i j : N) :
  (i < 16)%N -> (j < 16)%N -> hex.digit i = hex.digit j -> i = j.
Proof.
  intros Hi Hj E.
  assert (Htable :
    forallb (fun x => forallb (fun y =>
      implb (Ascii.eqb (hex.digit (N.of_nat x)) (hex.digit (N.of_nat y)))
            (Nat.eqb x y)) (seq 0 16)) (seq 0 16) = true) by (vm_compute; reflexivity).
  rewrite forallb_forall in Htable.
  specialize (Htable (N.to_nat i)). rewrite forallb_forall in Htable.
  specialize (Htable ltac:(apply in_seq; lia) (N.to_nat j) ltac:(apply in_seq; lia)).
  rewrite !N2Nat.id, E, Ascii.eqb_refl in Htable. cbn in Htable.
  apply Nat.eqb_eq in Htable. lia.
Qed.

Lemma digit_unreserved (i : N) :
  (i < 16)%N -> url.shouldEscape (hex.digit i) = false.
Proof.
  intros Hi. unfold hex.digit.
  assert (Hn : (N.to_nat i < 16)%nat) by lia.
  remember (N.to_nat i) as n eqn:Hneq. clear Hneq Hi i.
  do 16 (destruct n as [|n]; [reflexivity|]). lia.
Qed.

(** The two digits of a byte are its quotient and remainder by sixteen. *)
Lemma nibbles (v : N) :
  (v < 256)%N ->
  N.shiftr v 4 = (v / 16)%N /\ N.land v 15 = (v mod 16)%N
  /\ (v / 16 < 16)%N /\ (v mod 16 < 16)%N.
Proof.
  intros Hv. rewrite N.shiftr_div_pow2.
  change 15%N with (N.ones 4). rewrite N.land_ones.
  change (2 ^ 4)%N with 16%N.
  repeat split; zify; Z.to_euclidean_division_equations; lia.
Qed.

Lemma hex_Encode_inj (l l' : list Byte.byte) :
  hex.Encode l = hex.Encode l' -> l = l'.
Proof.
  revert l'. induction l as [|v l IH]; intros [|v' l']; cbn [hex.Encode];
    intros E; try discriminate E; try reflexivity.
  injection E as Ehi Elo Erest.
  destruct (nibbles (Byte.to_N v) (to_N_lt v)) as (Hhi & Hlo & Bhi & Blo).
  destruct (nibbles (Byte.to_N v') (to_N_lt v')) as (Hhi' & Hlo' & Bhi' & Blo').
  rewrite Hhi, Hhi' in Ehi. rewrite Hlo, Hlo' in Elo.
  apply digit_inj in Ehi, Elo; try assumption.
  assert (Ev : Byte.to_N v = Byte.to_N v').
  { rewrite (N.div_mod (Byte.to_N v) 16), (N.div_mod (Byte.to_N v') 16)
      by discriminate.
    rewrite Ehi, Elo. reflexivity. }
  apply to_N_inj in Ev. subst v'. rewrite (IH l' Erest). reflexivity.
Qed.

Lemma hex_Encode_length (l : list Byte.byte) :
  length (hex.Encode l) = (2 * length l)%nat.
Proof.
  induction l as [|v l IH]; cbn [hex.Encode length]; [reflexivity|].
  rewrite IH. lia.
Qed.

Lemma hex_Encode_unreserved (l : list Byte.byte) :
  Forall (fun a => url.shouldEscape a = false) (hex.Encode l).
Proof.
  induction l as [|v l IH]; cbn [hex.Encode]; [constructor|].
  destruct (nibbles (Byte.to_N v) (to_N_lt v)) as (Hhi & Hlo & Bhi & Blo).
  constructor; [rewrite Hhi; apply digit_unreserved; exact Bhi|].
  constructor; [rewrite Hlo; apply digit_unreserved; exact Blo|].
  exact IH.
Qed.

Lemma generateNewSID_cases (c : Context) :
  ((16 <= length (rand_Reader c))%nat
   /\ generateNewSID c =
        Next (Ok (hex.EncodeToString (firstn 16 (rand_Reader c))))
             (with_rand_Reader (skipn 16 (rand_Reader c)) c))
  \/ ((length (rand_Reader c) < 16)%nat
      /\ exists e, generateNewSID c = Next (Err e) (with_rand_Reader [] c)).
Proof.
  destruct (Nat.le_gt_cases 16 (length (rand_Reader c))) as [Hle|Hgt].
  - left. split; [exact Hle | apply generateNewSID_ok; exact Hle].
  - right. split; [exact Hgt|]. eexists.
    unfold generateNewSID, rand_ReadFull, mbind, Handler_bind.
    destruct (Nat.ltb_spec (length (rand_Reader c)) 16) as [_|Hge]; [|lia].
    reflexivity.
Qed.

(** [generateNewSID] returns thirty-two characters that query escaping
    leaves alone (so the cookie holds the identifier itself), and two calls
    return the same identifier exactly when the entropy source gave them the
    same sixteen bytes. *)
Theorem generateNewSID_faithful (c c1 d d1 : Context) (s t : string) :
  generateNewSID c = Next (Ok s) c1 ->
  generateNewSID d = Next (Ok t) d1 ->
  String.length s = 32%nat
  /\ url.QueryEscape s = s
  /\ (s = t <-> firstn 16 (rand_Reader c) = firstn 16 (rand_Reader d)).
Proof.
  intros Hs Ht.
  destruct (generateNewSID_cases c) as [[Hlen E]|[_ [e E]]];
    rewrite E in Hs; [|discriminate Hs].
  destruct (generateNewSID_cases d) as [[Hlen' E']|[_ [e' E']]];
    rewrite E' in Ht; [|discriminate Ht].
  injection Hs as <- _. injection Ht as <- _.
  unfold hex.EncodeToString.
  split; [|split; [|split]].
  - rewrite length_string_of_list_ascii, hex_Encode_length, length_firstn.
    rewrite Nat.min_l by exact Hlen. reflexivity.
  - apply QueryEscape_unreserved, hex_Encode_unreserved.
  - intros Eq. apply hex_Encode_inj, string_of_list_ascii_inj, Eq.
  - intros ->. reflexivity.
Qed.

Lemma generateNewSID_faithful_witness :
  let c := Scenario.request "" [] Scenario.empty_session 1000 in
  String.length "30313233343536373839616263646566" = 32%nat
  /\ url.QueryEscape "30313233343536373839616263646566"
     = "30313233343536373839616263646566".
Proof.
  intros c.
  destruct (generateNewSID_faithful c
              (with_rand_Reader (skipn 16 Scenario.entropy) c) c
              (with_rand_Reader (skipn 16 Scenario.entropy) c)
              "30313233343536373839616263646566" "30313233343536373839616263646566"
              eq_refl eq_refl) as (Hlen & Hq & _).
  split; [exact Hlen | exact Hq].
Defined.

(** ** LoginStart without entropy *)

(** When the entropy source cannot deliver the thirty-two bytes of state and
    nonce, LoginStart answers 500 and leaves no partial result: no cookie,
    no header, no body, and the session as it was, whichever of the two
    generations failed. *)
Theorem LoginStart_entropy_failure (o : OidcAgent) (c : Context) :
  (length (rand_Reader c) < 32)%nat ->
  let c' := run (LoginStart o) c in
  status (Writer c') = http.StatusInternalServerError
  /\ aborted (Writer c') = true
  /\ cookies (Writer c') = cookies (Writer c)
  /\ header (Writer c') = header (Writer c)
  /\ body (Writer c') = body (Writer c)
  /\ session c' = session c
  /\ sameSite c' = sameSite c.
Proof.
  intros Hlen c'. subst c'.
  unfold LoginStart. exec.
  destruct (randString_cases 16 c) as [[Hle E]|[_ [e E]]]; rewrite E; cbn.
  - destruct (randString_cases 16 (with_rand_Reader (skipn 16 (rand_Reader c)) c))
      as [[Hle' _]|[_ [e E']]].
    + cbn in Hle'. rewrite length_skipn in Hle'. lia.
    + rewrite E'. cbn. repeat split.
  - repeat split.
Qed.

Lemma LoginStart_entropy_failure_witness :
  let c := with_rand_Reader (firstn 20 Scenario.entropy)
             (Scenario.request "" [] Scenario.empty_session 1000) in
  status (Writer (run (LoginStart Scenario.agent) c)) = 500
  /\ cookies (Writer (run (LoginStart Scenario.agent) c)) = [].
Proof.
  intros c.
  destruct (LoginStart_entropy_failure Scenario.agent c) as (Hst & _ & Hk & _).
  - vm_compute. lia.
  - split; [exact Hst | exact Hk].
Defined.

(** ** LoginEnd: every outcome *)

(** LoginEnd is all or nothing, whatever the request and whatever the
    collaborators do: either it answers 200 with a body whose [logged_in]
    tells whether the session now holds a token, or it aborts with 400, 401
    or 500 and leaves the store, the headers and the body untouched (no
    Authorization header, nothing persisted). *)
Theorem LoginEnd_outcomes (w : Collaborators) (o : OidcAgent) (c : Context) :
  let c' := run (LoginEnd w o) c in
  (aborted_with [http.StatusBadRequest; http.StatusUnauthorized;
                 http.StatusInternalServerError] (Writer c')
   /\ persisted (session c') = persisted (session c)
   /\ header (Writer c') = header (Writer c)
   /\ body (Writer c') = body (Writer c))
  \/ (status (Writer c') = http.StatusOK
      /\ aborted (Writer c') = aborted (Writer c)
      /\ exists handled : bool,
           body (Writer c') = LoginEndResponse handled (has_token (session c'))).
Proof.
  intros c'. subst c'.
  unfold LoginEnd, completeLogin, BindJSON, isLoggedIn, Exchange, Verify,
    tokenToJSONString, aborted_with.
  exec.
  repeat (outcome; cbn).
  all: try (left; cbn; tauto).
  all: right; cbn; repeat split; eexists; unfold has_token; cbn.
  all: try (rewrite lookup_insert_ne by discriminate; rewrite lookup_insert_eq).
  all: try match goal with H : _ !! TokenKey = _ |- _ => rewrite H end.
  all: reflexivity.
Qed.

(** ** The cookies of the package *)

Lemma QueryEscape_hex (src : list Byte.byte) :
  url.QueryEscape (hex.EncodeToString src) = hex.EncodeToString src.
Proof. apply QueryEscape_unreserved, hex_Encode_unreserved. Qed.

(** Every cookie that LoginStart, LoginEnd or Refresh adds to a response,
    on any outcome, is HTTP-only, on path "/", without a domain, and
    secure exactly when the request came over https. *)
Theorem cookies_hardened (w : Collaborators) (o : OidcAgent) (c : Context) :
  Forall
    (fun h : Handler unit =>
       exists ks : list http.Cookie,
         cookies (Writer (run h c)) = cookies (Writer c) ++ ks
         /\ Forall (hardened c) ks)
    [LoginStart o; LoginEnd w o; Refresh w o].
Proof.
  repeat apply List.Forall_cons; [| | |apply List.Forall_nil].
  - unfold LoginStart. exec.
    destruct (randString_cases 16 c) as [[_ E]|[_ [e E]]]; rewrite E; cbn;
      [|new_cookies].
    destruct (randString_cases 16 (with_rand_Reader (skipn 16 (rand_Reader c)) c))
      as [[_ E']|[_ [e E']]]; rewrite E'; cbn; new_cookies.
  - unfold LoginEnd, completeLogin, BindJSON, isLoggedIn, Exchange, Verify,
      tokenToJSONString.
    exec. repeat (outcome; cbn). all: new_cookies.
  - unfold Refresh, JsonStringToToken, tokenToJSONString. exec.
    repeat (outcome; cbn). all: try new_cookies.
    all: match goal with
         | |- context [generateNewSID ?c0] =>
             destruct (generateNewSID_cases c0) as [[_ E]|[_ [? E]]];
             rewrite E; cbn
         end.
    all: repeat (outcome; cbn). all: new_cookies.
Qed.

(** ** Refresh *)

(** A successful refresh: 204, the serialized new token under "token", a
    fresh session identifier (the next sixteen bytes of entropy, in
    hexadecimal) under "sessionID" and in the sessionID cookie, both
    persisted; the Authorization header carries the new access token, and
    every other session entry (the ID token among them) stays. *)
Theorem Refresh_success (w : Collaborators) (o : OidcAgent) (c : Context)
    (tokenRaw tokenString : string) (token newToken : oauth2.Token) :
  values (session c) !! TokenKey = Some tokenRaw ->
  json_Unmarshal_Token w tokenRaw = Ok token ->
  TokenSource_Token w (insecureTLS o) token = Ok newToken ->
  (16 <= length (rand_Reader c))%nat ->
  json_Marshal_Token w newToken = Ok tokenString ->
  store_fails (session c) = false ->
  let newSID := hex.EncodeToString (firstn 16 (rand_Reader c)) in
  let c' := run (Refresh w o) c in
  status (Writer c') = http.StatusNoContent
  /\ aborted (Writer c') = aborted (Writer c)
  /\ values (session c') =
       <["sessionID" := newSID]> (<[TokenKey := tokenString]> (values (session c)))
  /\ persisted (session c') = values (session c')
  /\ (forall key, key <> TokenKey -> key <> "sessionID" ->
        values (session c') !! key = values (session c) !! key)
  /\ cookies (Writer c') = cookies (Writer c) ++ [sid_cookie newSID c]
  /\ header (Writer c') =
       header (Writer c) ++
         [("Authorization", "Bearer " +:+ oauth2.AccessToken newToken)]
  /\ new_events c c' =
       [EvSessionGet TokenKey; EvTokenSource token;
        EvSessionSet TokenKey tokenString; EvSessionSet "sessionID" newSID;
        EvSessionSave true].
Proof.
  intros Hget Hdec Hsrc Hlen Hm Hstore newSID c'. subst c' newSID.
  unfold Refresh, JsonStringToToken, tokenToJSONString, prepareContext. exec.
  rewrite Hget. cbn. rewrite Hdec. cbn. rewrite Hsrc. cbn.
  rewrite generateNewSID_ok by exact Hlen. cbn.
  rewrite Hm. cbn. rewrite Hstore. cbn.
  unfold sid_cookie, hex.EncodeToString.
  rewrite (QueryEscape_unreserved _ (hex_Encode_unreserved _)).
  repeat split.
  - intros key H1 H2. rewrite !lookup_insert_ne by congruence. reflexivity.
  - apply new_events_app. cbn. rewrite <- !app_assoc. reflexivity.
Qed.

Lemma Refresh_success_witness :
  let w := Scenario.world "N" true in
  let c := Scenario.request "" [] Scenario.logged_in_session 1000 in
  status (Writer (run (Refresh w Scenario.agent) c)) = 204
  /\ cookies (Writer (run (Refresh w Scenario.agent) c)) =
       [sid_cookie "30313233343536373839616263646566" c].
Proof.
  intros w c.
  destruct (Refresh_success w Scenario.agent c "token:access-1" "token:access-2"
              (Scenario.token "access-1" 5000000000000)
              (Scenario.token "access-2" 9000000000000))
    as (Hst & _ & _ & _ & _ & Hk & _).
  all: try reflexivity.
  - vm_compute. lia.
  - split; [exact Hst | exact Hk].
Defined.

(** Refresh is all or nothing, whatever the collaborators do: either it
    answers 204 with a new session identifier in session, store and cookie,
    or it aborts with 400, 401 or 500 and leaves the store, the cookies and
    the headers as they were. *)
Theorem Refresh_outcomes (w : Collaborators) (o : OidcAgent) (c : Context) :
  let c' := run (Refresh w o) c in
  (status (Writer c') = http.StatusNoContent
   /\ aborted (Writer c') = aborted (Writer c)
   /\ persisted (session c') = values (session c')
   /\ exists newSID : string,
        values (session c') !! "sessionID" = Some newSID
        /\ cookies (Writer c') = cookies (Writer c) ++ [sid_cookie newSID c])
  \/ (aborted_with [http.StatusBadRequest; http.StatusUnauthorized;
                    http.StatusInternalServerError] (Writer c')
      /\ persisted (session c') = persisted (session c)
      /\ cookies (Writer c') = cookies (Writer c)
      /\ header (Writer c') = header (Writer c)).
Proof.
  intros c'. subst c'.
  unfold Refresh, JsonStringToToken, tokenToJSONString, aborted_with. exec.
  repeat (outcome; cbn). all: try (right; cbn; tauto).
  all: match goal with
       | |- context [generateNewSID ?c0] =>
           destruct (generateNewSID_cases c0) as [[_ E]|[_ [? E]]];
           rewrite E; cbn
       end.
  all: repeat (outcome; cbn). all: try (right; cbn; tauto).
  left. repeat split. eexists. split; [apply lookup_insert_eq|].
  unfold sid_cookie, hex.EncodeToString. cbn.
  rewrite (QueryEscape_unreserved _ (hex_Encode_unreserved _)). reflexivity.
Qed.

(** ** Logout *)

(** A successful logout: 200 with the logout URL built from the ID token
    that was in the session; the token and the ID token are gone from the
    session and from the store, and every other entry stays. *)
Theorem Logout_success (w : Collaborators) (c : Context)
    (idToken logoutURL : string) :
  values (session c) !! IDTokenKey = Some idToken ->
  store_fails (session c) = false ->
  agent_LogoutURL w idToken = Ok logoutURL ->
  let c' := run (Logout w) c in
  status (Writer c') = http.StatusOK
  /\ body (Writer c') = LogoutResponse logoutURL
  /\ values (session c') = delete TokenKey (delete IDTokenKey (values (session c)))
  /\ persisted (session c') = values (session c')
  /\ has_token (session c') = false
  /\ (forall key, key <> TokenKey -> key <> IDTokenKey ->
        values (session c') !! key = values (session c) !! key)
  /\ new_events c c' =
       [EvSessionGet IDTokenKey; EvSessionDelete IDTokenKey;
        EvSessionDelete TokenKey; EvSessionSave true].
Proof.
  intros Hid Hstore Hurl c'. subst c'.
  unfold Logout, has_token. exec.
  rewrite Hid. cbn. rewrite Hstore. cbn. rewrite Hurl. cbn.
  repeat split.
  - rewrite lookup_delete_eq. reflexivity.
  - intros key H1 H2. rewrite !lookup_delete_ne by congruence. reflexivity.
  - apply new_events_app. cbn. rewrite <- !app_assoc. reflexivity.
Qed.

Lemma Logout_success_witness :
  let w := Scenario.world "N" true in
  let c := Scenario.request "" [] Scenario.logged_in_session 1000 in
  status (Writer (run (Logout w) c)) = 200
  /\ body (Writer (run (Logout w) c)) =
       LogoutResponse "https://idp.example/logout?hint=raw-id-token".
Proof.
  intros w c.
  destruct (Logout_success w c "raw-id-token"
              "https://idp.example/logout?hint=raw-id-token"
              eq_refl eq_refl eq_refl) as (Hst & Hbody & _).
  split; [exact Hst | exact Hbody].
Defined.

(** The ways a logout fails.  Without an ID token in the session it answers
    401 and removes nothing, even when a token is there.  When the save
    fails it answers 500 and the store keeps what it held.  When the logout
    URL cannot be built it answers 500 as well, but by then both entries are
    deleted and the deletion is persisted. *)
Theorem Logout_failures (w : Collaborators) (c : Context) :
  let c' := run (Logout w) c in
  (values (session c) !! IDTokenKey = None ->
     status (Writer c') = http.StatusUnauthorized
     /\ session c' = session c
     /\ new_events c c' = [EvSessionGet IDTokenKey])
  /\ (forall idToken,
        values (session c) !! IDTokenKey = Some idToken ->
        store_fails (session c) = true ->
        status (Writer c') = http.StatusInternalServerError
        /\ persisted (session c') = persisted (session c)
        /\ body (Writer c') = body (Writer c))
  /\ (forall idToken e,
        values (session c) !! IDTokenKey = Some idToken ->
        store_fails (session c) = false ->
        agent_LogoutURL w idToken = Err e ->
        status (Writer c') = http.StatusInternalServerError
        /\ body (Writer c') = body (Writer c)
        /\ persisted (session c') =
             delete TokenKey (delete IDTokenKey (values (session c)))).
Proof.
  intros c'. subst c'. unfold Logout. exec.
  split; [|split].
  - intros ->. cbn. repeat split. apply new_events_app. reflexivity.
  - intros idToken Hid Hstore. rewrite Hid. cbn. rewrite Hstore. cbn.
    repeat split.
  - intros idToken e Hid Hstore Hurl. rewrite Hid. cbn. rewrite Hstore. cbn.
    rewrite Hurl. cbn. repeat split.
Qed.

Lemma Logout_failures_witness :
  let w := Scenario.world "N" true in
  let s := {| values := {[ TokenKey := "token:access-1" ]};
              persisted := {[ TokenKey := "token:access-1" ]};
              store_fails := false; SessionID := "sid-2" |} in
  let c := Scenario.request "" [] s 1000 in
  status (Writer (run (Logout w) c)) = 401
  /\ session (run (Logout w) c) = s.
Proof.
  intros w s c.
  destruct (proj1 (Logout_failures w c) eq_refl) as (Hst & Hse & _).
  split; [exact Hst | exact Hse].
Defined.

(** ** What the reading handlers leave alone *)


(** ** The authenticated proxy *)

(** With a decodable token in the session the authenticated proxy sends
    exactly one request to the backend: the one the device-flow proxy would
    send, with the stored token attached as it is.  It does not look at the
    token's expiry and never calls the provider (no refresh); the backend's
    status and body become the response. *)
Theorem CodeFlowProxy_forwards (w : Collaborators) (o : OidcAgent)
    (c : Context) (tokenRaw : string) (token : oauth2.Token) :
  values (session c) !! TokenKey = Some tokenRaw ->
  json_Unmarshal_Token w tokenRaw = Ok token ->
  let c' := run (CodeFlowProxy w o) c in
  let req := proxied_request o (Some token) c in
  new_events c c' = [EvSessionGet TokenKey; EvBackend req]
  /\ new_events c (run (DeviceFlowProxy w o) c) =
       [EvBackend (proxied_request o None c)]
  /\ status (Writer c') = bresp_status (backend_RoundTrip w req)
  /\ body (Writer c') = Streamed (bresp_body (backend_RoundTrip w req))
  /\ aborted (Writer c') = aborted (Writer c)
  /\ forallb (fun e => negb (is_provider_call e)) (new_events c c') = true.
Proof.
  intros Hget Hdec c' req. subst c' req.
  unfold CodeFlowProxy, DeviceFlowProxy, ServeHTTP, JsonStringToToken,
    proxied_request.
  exec. rewrite Hget. cbn. rewrite Hdec. cbn.
  rewrite (new_events_app c _ [EvSessionGet TokenKey; EvBackend _])
    by (cbn; rewrite <- app_assoc; reflexivity).
  rewrite (new_events_app c _ [EvBackend _]) by reflexivity.
  repeat split.
Qed.

Lemma CodeFlowProxy_forwards_witness :
  let w := Scenario.world "N" true in
  let c := Scenario.request "" [] Scenario.logged_in_session 6000000000000 in
  oauth2.Valid (Scenario.token "access-1" 5000000000000) (timeNow c) = false
  /\ new_events c (run (CodeFlowProxy w Scenario.agent) c) =
       [EvSessionGet TokenKey;
        EvBackend (proxied_request Scenario.agent
                     (Some (Scenario.token "access-1" 5000000000000)) c)]
  /\ status (Writer (run (CodeFlowProxy w Scenario.agent) c)) = 200.
Proof.
  intros w c. split; [reflexivity|].
  destruct (CodeFlowProxy_forwards w Scenario.agent c "token:access-1"
              (Scenario.token "access-1" 5000000000000) eq_refl eq_refl)
    as (Hev & _ & Hst & _).
  split; [exact Hev | exact Hst].
Defined.

(** ** A token that does not decode *)

(** When the session holds a token that cannot be decoded, UserInfo,
    Refresh, CheckAuth and the authenticated proxy all answer 500 after the
    session lookup alone: they call neither the provider nor the backend and
    change nothing. *)
Theorem undecodable_token (w : Collaborators) (o : OidcAgent) (c : Context)
    (tokenRaw e : string) :
  values (session c) !! TokenKey = Some tokenRaw ->
  json_Unmarshal_Token w tokenRaw = Err e ->
  Forall
    (fun h : Handler unit =>
       status (Writer (run h c)) = http.StatusInternalServerError
       /\ aborted (Writer (run h c)) = true
       /\ new_events c (run h c) = [EvSessionGet TokenKey]
       /\ session (run h c) = session c
       /\ body (Writer (run h c)) = body (Writer c))
    [UserInfo w o; Refresh w o; CheckAuth w; CodeFlowProxy w o].
Proof.
  intros Hget Hdec.
  repeat apply List.Forall_cons; try apply List.Forall_nil.
  all: unfold UserInfo, Refresh, CheckAuth, CodeFlowProxy, JsonStringToToken.
  all: exec; rewrite Hget; cbn; rewrite Hdec; cbn.
  all: rewrite (new_events_app c _ [EvSessionGet TokenKey]) by reflexivity.
  all: repeat split.
Qed.

Lemma undecodable_token_witness :
  let w := Scenario.world "N" true in
  let s := {| values := {[ TokenKey := "garbage" ]};
              persisted := {[ TokenKey := "garbage" ]};
              store_fails := false; SessionID := "sid-3" |} in
  let c := Scenario.request "" [] s 1000 in
  Forall (fun h : Handler unit => status (Writer (run h c)) = 500)
    [UserInfo w Scenario.agent; Refresh w Scenario.agent; CheckAuth w;
     CodeFlowProxy w Scenario.agent].
Proof.
  intros w s c.
  pose proof (undecodable_token w Scenario.agent c "garbage" "invalid character"
                eq_refl eq_refl) as H.
  eapply List.Forall_impl; [|exact H].
  intros h Hh. exact (proj1 Hh).
Defined.

(** ** CheckAuth and the clock *)

(** When a token with an access token and an expiry is valid. *)
Lemma Valid_threshold (t : oauth2.Token) (now : time.Time) :
  oauth2.AccessToken t <> "" ->
  oauth2.Expiry t <> 0 ->
  oauth2.Valid t now = (now <=? oauth2.Expiry t - 10 * time.Second).
Proof.
  intros Hat Hexp. unfold oauth2.Valid, oauth2.expired, time.IsZero,
    time.Before, time.Add, oauth2.expiryDelta.
  rewrite (eqb_false_of_neq _ _ Hat).
  destruct (Z.eqb_spec (oauth2.Expiry t) 0) as [E|_]; [contradiction|].
  cbn [negb andb].
  destruct (Z.ltb_spec (oauth2.Expiry t + - (10 * time.Second)) now);
    destruct (Z.leb_spec now (oauth2.Expiry t - 10 * time.Second));
    cbn; try reflexivity; lia.
Qed.

(** CheckAuth by the clock, for a session holding a decodable token: without
    an access token it always answers 401; with one and no expiry (the zero
    time) always 200; with one and an expiry it answers 200 up to ten
    seconds before the expiry and 401 from then on, that is, already during
    the last ten seconds of the token's life. *)
Theorem CheckAuth_threshold (w : Collaborators) (c : Context)
    (tokenRaw : string) (token : oauth2.Token) :
  values (session c) !! TokenKey = Some tokenRaw ->
  json_Unmarshal_Token w tokenRaw = Ok token ->
  let st := status (Writer (run (CheckAuth w) c)) in
  (oauth2.AccessToken token = "" -> st = http.StatusUnauthorized)
  /\ (oauth2.AccessToken token <> "" -> oauth2.Expiry token = 0 ->
      st = http.StatusOK)
  /\ (oauth2.AccessToken token <> "" -> oauth2.Expiry token <> 0 ->
      (timeNow c <= oauth2.Expiry token - 10 * time.Second ->
         st = http.StatusOK)
      /\ (oauth2.Expiry token - 10 * time.Second < timeNow c ->
         st = http.StatusUnauthorized)).
Proof.
  intros Hget Hdec st. subst st.
  rewrite (CheckAuth_decoded w c tokenRaw token Hget Hdec). cbn zeta.
  split; [|split].
  - intros Hat. unfold oauth2.Valid. rewrite Hat. reflexivity.
  - intros Hat Hexp. unfold oauth2.Valid, oauth2.expired, time.IsZero.
    rewrite (eqb_false_of_neq _ _ Hat), Hexp. reflexivity.
  - intros Hat Hexp. rewrite (Valid_threshold token (timeNow c) Hat Hexp).
    split; intros Hnow.
    + destruct (Z.leb_spec (timeNow c) (oauth2.Expiry token - 10 * time.Second));
        [reflexivity | lia].
    + destruct (Z.leb_spec (timeNow c) (oauth2.Expiry token - 10 * time.Second));
        [lia | reflexivity].
Qed.

Lemma CheckAuth_threshold_witness :
  let w := Scenario.world "N" true in
  let c := Scenario.request "" [] Scenario.logged_in_session 4995000000000 in
  timeNow c < oauth2.Expiry (Scenario.token "access-1" 5000000000000)
  /\ status (Writer (run (CheckAuth w) c)) = 401.
Proof.
  intros w c. split; [vm_compute; reflexivity|].
  destruct (CheckAuth_threshold w c "token:access-1"
              (Scenario.token "access-1" 5000000000000) eq_refl eq_refl)
    as (_ & _ & H).
  destruct H as [_ Hlate]; [discriminate | discriminate |].
  apply Hlate. vm_compute. reflexivity.
Defined.

(** ** UserInfo *)



(** ** From LoginStart to LoginEnd, and on to the next request *)

Lemma LoginStart_run (o : OidcAgent) (c c1 c2 : Context) (state nonce : string) :
  randString 16 c = Next (Ok state) c1 ->
  randString 16 c1 = Next (Ok nonce) c2 ->
  state <> ""
  /\ cookies (Writer (run (LoginStart o) c)) =
       cookies (Writer c) ++
         [csrf_cookie "state" state c; csrf_cookie "nonce" nonce c]
  /\ body (Writer (run (LoginStart o) c)) =
       LoginStartResponse
         (oauth2.AuthCodeURL (oauthConfig o) state [oidc.Nonce nonce]).
Proof.
  intros Hstate Hnonce.
  destruct (randString_inv 16 c c1 state Hstate) as (Hlen1 & Es & E1).
  destruct (randString_inv 16 c1 c2 nonce Hnonce) as (Hlen2 & En & E2).
  assert (Hqs : url.QueryEscape state = state)
    by (rewrite Es; apply QueryEscape_base64).
  assert (Hqn : url.QueryEscape nonce = nonce)
    by (rewrite En; apply QueryEscape_base64).
  split.
  - rewrite Es. apply EncodeToString_nonempty. intros Hnil.
    assert (Hl : length (firstn 16 (rand_Reader c)) = 16%nat)
      by (rewrite length_firstn; lia).
    rewrite Hnil in Hl. discriminate Hl.
  - unfold LoginStart. exec. rewrite Hstate. cbn. rewrite Hnonce. cbn.
    unfold csrf_cookie. rewrite E2, E1. cbn. rewrite Hqs, Hqn.
    split; [rewrite <- app_assoc|]; reflexivity.
Qed.

(** What a completed login leaves behind. *)
Lemma completion_success (w : Collaborators) (o : OidcAgent)
    (c : Context) (data : LoginEndRequest) (u : url.URL)
    (nonce rawIDToken tokenString : string) (oauth2Token : oauth2.Token)
    (idToken : oidc.IDToken) :
  decode_LoginEndRequest w (http.Body (Request c)) = Ok data ->
  url_Parse w (RequestURL data) = Ok u ->
  url.Get (url.Query u) "state" <> "" ->
  url.Get (url.Query u) "code" <> "" ->
  url.Get (url.Query u) "error" = "" ->
  http.find_cookie "state" (http.Cookies (Request c)) =
    Ok (url.Get (url.Query u) "state") ->
  http.find_cookie "nonce" (http.Cookies (Request c)) = Ok nonce ->
  oauthConfig_Exchange w (insecureTLS o) (url.Get (url.Query u) "code") =
    Ok oauth2Token ->
  oauth2.as_string (oauth2.Extra oauth2Token "id_token") = Some rawIDToken ->
  verifier_Verify w (insecureTLS o) rawIDToken = Ok idToken ->
  oidc.Nonce_ idToken = nonce ->
  json_Marshal_Token w oauth2Token = Ok tokenString ->
  store_fails (session c) = false ->
  let c' := run (LoginEnd w o) c in
  status (Writer c') = http.StatusOK
  /\ body (Writer c') = LoginEndResponse true true
  /\ persisted (session c') =
       <[IDTokenKey := rawIDToken]> (<[TokenKey := tokenString]> (values (session c)))
  /\ store_fails (session c') = false.
Proof.
  intros Hd Hu Hs Hc He Hk Hn Hx Hextra Hv Heq Hm Hstore c'. subst c'.
  rewrite (LoginEnd_handleAuth w o c data u Hd Hu Hs Hc He).
  unfold completeLogin, Exchange, Verify, tokenToJSONString. exec.
  rewrite Hk. cbn. rewrite String.eqb_refl. cbn. rewrite Hn. cbn.
  rewrite Hx. cbn. rewrite Hextra. cbn. rewrite Hv. cbn.
  rewrite Heq, String.eqb_refl. cbn. rewrite Hm. cbn. rewrite Hstore. cbn.
  repeat split.
Qed.

(** The login round trip: when the callback request brings back the cookies
    of a LoginStart response, its callback URL carries the state of the
    authorization URL of that response, and the provider's ID token carries
    that URL's nonce, then LoginEnd passes both checks and (the exchange,
    the verification, the serialization and the save succeeding) answers 200
    with [handled] and [logged_in] set, the session holding a token. *)
Theorem login_round_trip (w : Collaborators) (o : OidcAgent)
    (c c1 c2 back : Context) (state nonce : string)
    (authURL : oauth2.AuthorizationURL)
    (data : LoginEndRequest) (u : url.URL)
    (rawIDToken tokenString : string) (oauth2Token : oauth2.Token)
    (idToken : oidc.IDToken) :
  randString 16 c = Next (Ok state) c1 ->
  randString 16 c1 = Next (Ok nonce) c2 ->
  cookies (Writer c) = [] ->
  body (Writer (run (LoginStart o) c)) = LoginStartResponse authURL ->
  http.Cookies (Request back) =
    returned_cookies (cookies (Writer (run (LoginStart o) c))) ->
  decode_LoginEndRequest w (http.Body (Request back)) = Ok data ->
  url_Parse w (RequestURL data) = Ok u ->
  url.Get (url.Query u) "state" = url.Get (oauth2.Params authURL) "state" ->
  url.Get (url.Query u) "code" <> "" ->
  url.Get (url.Query u) "error" = "" ->
  oauthConfig_Exchange w (insecureTLS o) (url.Get (url.Query u) "code") =
    Ok oauth2Token ->
  oauth2.as_string (oauth2.Extra oauth2Token "id_token") = Some rawIDToken ->
  verifier_Verify w (insecureTLS o) rawIDToken = Ok idToken ->
  oidc.Nonce_ idToken = url.Get (oauth2.Params authURL) "nonce" ->
  json_Marshal_Token w oauth2Token = Ok tokenString ->
  store_fails (session back) = false ->
  let c' := run (LoginEnd w o) back in
  status (Writer c') = http.StatusOK
  /\ body (Writer c') = LoginEndResponse true true
  /\ persisted (session c') !! TokenKey = Some tokenString
  /\ persisted (session c') !! IDTokenKey = Some rawIDToken.
Proof.
  intros Hstate Hnonce Hfresh Hbody Hback Hd Hu Hcs Hc He Hx Hextra Hv Hin Hm
    Hstore c'. subst c'.
  destruct (LoginStart_run o c c1 c2 state nonce Hstate Hnonce)
    as (Hne & Hcookies & Hbody').
  rewrite Hbody' in Hbody. injection Hbody as <-.
  destruct (AuthCodeURL_params (oauthConfig o) state nonce Hne) as [Eps Epn].
  cbn zeta in Eps, Epn. rewrite Eps in Hcs. rewrite Epn in Hin.
  rewrite Hcookies, Hfresh in Hback. cbn in Hback.
  assert (Hks : http.find_cookie "state" (http.Cookies (Request back)) =
                Ok (url.Get (url.Query u) "state"))
    by (rewrite Hback, Hcs; reflexivity).
  assert (Hkn : http.find_cookie "nonce" (http.Cookies (Request back)) = Ok nonce)
    by (rewrite Hback; reflexivity).
  assert (Hs : url.Get (url.Query u) "state" <> "") by (rewrite Hcs; exact Hne).
  destruct (completion_success w o back data u nonce rawIDToken tokenString
              oauth2Token idToken Hd Hu Hs Hc He Hks Hkn Hx Hextra Hv Hin Hm
              Hstore) as (Hst & Hb & Hp & _).
  rewrite Hst, Hb, Hp.
  repeat split.
  - rewrite lookup_insert_ne by discriminate. apply lookup_insert_eq.
  - apply lookup_insert_eq.
Qed.

Lemma login_round_trip_witness :
  let w := Scenario.world "RkVEQ0JBOTg3NjU0MzIxMA" true in
  let o := Scenario.agent in
  let c := Scenario.request "" [] Scenario.empty_session 1000 in
  let u := Scenario.callback [("state", ["MDEyMzQ1Njc4OWFiY2RlZg"]);
                              ("code", ["ABC"])] in
  let w' := {| decode_LoginEndRequest := decode_LoginEndRequest w;
               url_Parse := fun _ => Ok u;
               json_Marshal_Token := json_Marshal_Token w;
               json_Unmarshal_Token := json_Unmarshal_Token w;
               decode_ProfileClaims := decode_ProfileClaims w;
               decode_claims_map := decode_claims_map w;
               oauthConfig_Exchange := oauthConfig_Exchange w;
               verifier_Verify := verifier_Verify w;
               provider_UserInfo := provider_UserInfo w;
               TokenSource_Token := TokenSource_Token w;
               agent_LogoutURL := agent_LogoutURL w;
               backend_RoundTrip := backend_RoundTrip w |} in
  let back := Scenario.request "callback"
                (returned_cookies (cookies (Writer (run (LoginStart o) c))))
                Scenario.empty_session 2000 in
  status (Writer (run (LoginEnd w' o) back)) = 200
  /\ body (Writer (run (LoginEnd w' o) back)) = LoginEndResponse true true.
Proof.
  intros w o c u w' back.
  destruct (login_round_trip w' o c
              (with_rand_Reader (skipn 16 Scenario.entropy) c)
              (with_rand_Reader (skipn 32 Scenario.entropy) c)
              back "MDEyMzQ1Njc4OWFiY2RlZg" "RkVEQ0JBOTg3NjU0MzIxMA"
              (oauth2.AuthCodeURL (oauthConfig o) "MDEyMzQ1Njc4OWFiY2RlZg"
                 [oidc.Nonce "RkVEQ0JBOTg3NjU0MzIxMA"])
              {| RequestURL := "callback" |} u
              "raw-id-token" "token:access-1"
              (Scenario.token "access-1" 5000000000000)
              {| oidc.Nonce_ := "RkVEQ0JBOTg3NjU0MzIxMA"; oidc.Subject := "alice";
                 oidc.claims := Some "{sub: alice}" |})
    as (Hst & Hbody & _).
  all: try reflexivity.
  all: try (vm_compute; discriminate).
  split; [exact Hst | exact Hbody].
Defined.

(** A completed login is there for the next request: the store holds the
    token and the ID token, so the next request of the client counts as
    logged in, CheckAuth judges the token that LoginEnd stored, and Logout
    finds the ID token (it does not answer 401). *)
Theorem login_is_persisted (w : Collaborators) (o : OidcAgent)
    (c : Context) (data : LoginEndRequest) (u : url.URL)
    (nonce rawIDToken tokenString : string) (oauth2Token : oauth2.Token)
    (idToken : oidc.IDToken) (req : http.Request) (now : time.Time) :
  decode_LoginEndRequest w (http.Body (Request c)) = Ok data ->
  url_Parse w (RequestURL data) = Ok u ->
  url.Get (url.Query u) "state" <> "" ->
  url.Get (url.Query u) "code" <> "" ->
  url.Get (url.Query u) "error" = "" ->
  http.find_cookie "state" (http.Cookies (Request c)) =
    Ok (url.Get (url.Query u) "state") ->
  http.find_cookie "nonce" (http.Cookies (Request c)) = Ok nonce ->
  oauthConfig_Exchange w (insecureTLS o) (url.Get (url.Query u) "code") =
    Ok oauth2Token ->
  oauth2.as_string (oauth2.Extra oauth2Token "id_token") = Some rawIDToken ->
  verifier_Verify w (insecureTLS o) rawIDToken = Ok idToken ->
  oidc.Nonce_ idToken = nonce ->
  json_Marshal_Token w oauth2Token = Ok tokenString ->
  store_fails (session c) = false ->
  let next := next_request req now (run (LoginEnd w o) c) in
  has_token (session next) = true
  /\ values (session next) !! IDTokenKey = Some rawIDToken
  /\ (forall t, json_Unmarshal_Token w tokenString = Ok t ->
        status (Writer (run (CheckAuth w) next)) =
          if oauth2.Valid t now then http.StatusOK else http.StatusUnauthorized)
  /\ status (Writer (run (Logout w) next)) <> http.StatusUnauthorized.
Proof.
  intros Hd Hu Hs Hc He Hk Hn Hx Hextra Hv Heq Hm Hstore next.
  destruct (completion_success w o c data u nonce rawIDToken tokenString
              oauth2Token idToken Hd Hu Hs Hc He Hk Hn Hx Hextra Hv Heq Hm
              Hstore) as (_ & _ & Hp & Hsf).
  assert (Htok : values (session next) !! TokenKey = Some tokenString).
  { subst next. cbn. rewrite Hp.
    rewrite lookup_insert_ne by discriminate. apply lookup_insert_eq. }
  assert (Hid : values (session next) !! IDTokenKey = Some rawIDToken).
  { subst next. cbn. rewrite Hp. apply lookup_insert_eq. }
  assert (Hnf : store_fails (session next) = false) by exact Hsf.
  assert (Hnow : timeNow next = now) by reflexivity.
  clearbody next.
  split; [unfold has_token; rewrite Htok; reflexivity|].
  split; [exact Hid|]. split.
  - intros t Ht. rewrite (CheckAuth_decoded w next tokenString t Htok Ht).
    cbn zeta. rewrite Hnow.
    destruct (oauth2.Valid t now); reflexivity.
  - unfold Logout. exec. rewrite Hid. cbn. rewrite Hnf. cbn.
    destruct (agent_LogoutURL w rawIDToken); cbn; discriminate.
Qed.

Lemma login_is_persisted_witness :
  let w := Scenario.world "N" true in
  let c := Scenario.request "https://gateway.example/login?state=S&code=ABC"
             [("state", "S"); ("nonce", "N")] Scenario.empty_session 1000 in
  let next := next_request (Request c) 2000 (run (LoginEnd w Scenario.agent) c) in
  has_token (session next) = true
  /\ status (Writer (run (CheckAuth w) next)) = 200.
Proof.
  intros w c next.
  destruct (login_is_persisted w Scenario.agent c
              {| RequestURL := http.Body (Request c) |}
              (Scenario.callback [("state", ["S"]); ("code", ["ABC"])])
              "N" "raw-id-token" "token:access-1"
              (Scenario.token "access-1" 5000000000000)
              {| oidc.Nonce_ := "N"; oidc.Subject := "alice";
                 oidc.claims := Some "{sub: alice}" |}
              (Request c) 2000)
    as (Hin & _ & Hcheck & _).
  all: try reflexivity.
  all: try (vm_compute; discriminate).
  split; [exact Hin|].
  exact (Hcheck (Scenario.token "access-1" 5000000000000) eq_refl).
Defined.

(** ** LoginEnd: the failures on the way *)

(** A body that does not decode, or a [request_url] that does not parse, is
    answered 400 before anything else happens: no cookie is read or cleared,
    no collaborator is called, the session is not touched.  The binding
    error is recorded with the response. *)
Theorem LoginEnd_bad_input (w : Collaborators) (o : OidcAgent) (c : Context) :
  let c' := run (LoginEnd w o) c in
  (forall e, decode_LoginEndRequest w (http.Body (Request c)) = Err e ->
     status (Writer c') = http.StatusBadRequest
     /\ aborted (Writer c') = true
     /\ Errors (Writer c') = Errors (Writer c) ++ [e]
     /\ cookies (Writer c') = cookies (Writer c)
     /\ session c' = session c
     /\ new_events c c' = [])
  /\ (forall data e,
        decode_LoginEndRequest w (http.Body (Request c)) = Ok data ->
        url_Parse w (RequestURL data) = Err e ->
        status (Writer c') = http.StatusBadRequest
        /\ aborted (Writer c') = true
        /\ Errors (Writer c') = Errors (Writer c)
        /\ cookies (Writer c') = cookies (Writer c)
        /\ session c' = session c
        /\ new_events c c' = []).
Proof.
  intros c'. subst c'. unfold LoginEnd, BindJSON. exec. split.
  - intros e Hd. rewrite Hd. cbn. repeat split. apply new_events_nil. reflexivity.
  - intros data e Hd Hu. rewrite Hd. cbn. rewrite Hu. cbn.
    repeat split. apply new_events_nil. reflexivity.
Qed.

Lemma LoginEnd_bad_input_witness :
  let w := Scenario.world "N" true in
  let c := Scenario.request "" [("state", "S")] Scenario.empty_session 1000 in
  status (Writer (run (LoginEnd w Scenario.agent) c)) = 400
  /\ Errors (Writer (run (LoginEnd w Scenario.agent) c)) = ["EOF"].
Proof.
  intros w c.
  destruct (proj1 (LoginEnd_bad_input w Scenario.agent c) "EOF" eq_refl)
    as (Hst & _ & Herr & _).
  split; [exact Hst | exact Herr].
Defined.

Section ProviderFailures.

Variable w : Collaborators.
Variable o : OidcAgent.
Variable c : Context.
Variable data : LoginEndRequest.
Variable u : url.URL.
Variable nonce : string.

Hypothesis Hdecode : decode_LoginEndRequest w (http.Body (Request c)) = Ok data.
Hypothesis Hparse : url_Parse w (RequestURL data) = Ok u.
Hypothesis Hstate : url.Get (url.Query u) "state" <> "".
Hypothesis Hcode : url.Get (url.Query u) "code" <> "".
Hypothesis Herror : url.Get (url.Query u) "error" = "".
Hypothesis Hcookie :
  http.find_cookie "state" (http.Cookies (Request c)) =
    Ok (url.Get (url.Query u) "state").
Hypothesis Hnonce : http.find_cookie "nonce" (http.Cookies (Request c)) = Ok nonce.

Local Abbreviation code := (url.Get (url.Query u) "code").

(** Once both cookies are consumed, a failure at the provider is answered
    500 with the error recorded, and the attempt cannot be repeated: both
    cookies are already cleared.  A failed exchange stops before any
    verification; a token response without a string [id_token] field stops
    there as well; a failed verification stops before the nonce is compared.
    None of them touches the session. *)
Theorem LoginEnd_provider_failures :
  let c' := run (LoginEnd w o) c in
  let after_cookies :=
    cookies (Writer c) ++ [cleared_cookie "state" c; cleared_cookie "nonce" c] in
  (forall e, oauthConfig_Exchange w (insecureTLS o) code = Err e ->
     status (Writer c') = http.StatusInternalServerError
     /\ Errors (Writer c') = Errors (Writer c) ++ [e]
     /\ cookies (Writer c') = after_cookies
     /\ session c' = session c
     /\ new_events c c' = [EvExchange code])
  /\ (forall oauth2Token,
        oauthConfig_Exchange w (insecureTLS o) code = Ok oauth2Token ->
        oauth2.as_string (oauth2.Extra oauth2Token "id_token") = None ->
        status (Writer c') = http.StatusInternalServerError
        /\ Errors (Writer c') =
             Errors (Writer c) ++ ["no id_token field in oauth2 token"]
        /\ cookies (Writer c') = after_cookies
        /\ session c' = session c
        /\ new_events c c' = [EvExchange code])
  /\ (forall oauth2Token rawIDToken e,
        oauthConfig_Exchange w (insecureTLS o) code = Ok oauth2Token ->
        oauth2.as_string (oauth2.Extra oauth2Token "id_token") = Some rawIDToken ->
        verifier_Verify w (insecureTLS o) rawIDToken = Err e ->
        status (Writer c') = http.StatusInternalServerError
        /\ Errors (Writer c') = Errors (Writer c) ++ [e]
        /\ cookies (Writer c') = after_cookies
        /\ session c' = session c
        /\ new_events c c' = [EvExchange code; EvVerify rawIDToken]).
Proof.
  intros c' after_cookies. subst c' after_cookies.
  rewrite (LoginEnd_handleAuth w o c data u Hdecode Hparse Hstate Hcode Herror).
  unfold completeLogin, Exchange, Verify. exec.
  rewrite Hcookie. cbn. rewrite String.eqb_refl. cbn. rewrite Hnonce. cbn.
  split; [|split].
  - intros e Hx. rewrite Hx. cbn.
    rewrite (new_events_app c _ [EvExchange code]) by reflexivity.
    rewrite <- app_assoc. repeat split.
  - intros oauth2Token Hx Hextra. rewrite Hx. cbn. rewrite Hextra. cbn.
    rewrite (new_events_app c _ [EvExchange code]) by reflexivity.
    rewrite <- app_assoc. repeat split.
  - intros oauth2Token rawIDToken e Hx Hextra Hv.
    rewrite Hx. cbn. rewrite Hextra. cbn. rewrite Hv. cbn.
    rewrite (new_events_app c _ [EvExchange code; EvVerify rawIDToken])
      by (cbn; rewrite <- app_assoc; reflexivity).
    rewrite <- app_assoc. repeat split.
Qed.

(** When the save fails at the end of an otherwise complete login, LoginEnd
    answers 500 without the Authorization header.  The values were set on
    the session of the request, but the store keeps what it held, so the
    client's next request is logged in only if it was before. *)
Theorem LoginEnd_save_failure (rawIDToken tokenString : string)
    (oauth2Token : oauth2.Token) (idToken : oidc.IDToken)
    (req : http.Request) (now : time.Time) :
  oauthConfig_Exchange w (insecureTLS o) code = Ok oauth2Token ->
  oauth2.as_string (oauth2.Extra oauth2Token "id_token") = Some rawIDToken ->
  verifier_Verify w (insecureTLS o) rawIDToken = Ok idToken ->
  oidc.Nonce_ idToken = nonce ->
  json_Marshal_Token w oauth2Token = Ok tokenString ->
  store_fails (session c) = true ->
  let c' := run (LoginEnd w o) c in
  status (Writer c') = http.StatusInternalServerError
  /\ aborted (Writer c') = true
  /\ header (Writer c') = header (Writer c)
  /\ body (Writer c') = body (Writer c)
  /\ values (session c') !! TokenKey = Some tokenString
  /\ persisted (session c') = persisted (session c)
  /\ values (session (next_request req now c')) = persisted (session c)
  /\ new_events c c' =
       [EvExchange code; EvVerify rawIDToken;
        EvSessionSet TokenKey tokenString; EvSessionSet IDTokenKey rawIDToken;
        EvSessionSave false].
Proof.
  intros Hx Hextra Hv Heq Hm Hstore c'. subst c'.
  rewrite (LoginEnd_handleAuth w o c data u Hdecode Hparse Hstate Hcode Herror).
  unfold completeLogin, Exchange, Verify, tokenToJSONString. exec.
  rewrite Hcookie. cbn. rewrite String.eqb_refl. cbn. rewrite Hnonce. cbn.
  rewrite Hx. cbn. rewrite Hextra. cbn. rewrite Hv. cbn.
  rewrite Heq, String.eqb_refl. cbn. rewrite Hm. cbn. rewrite Hstore. cbn.
  repeat split.
  - rewrite lookup_insert_ne by discriminate. apply lookup_insert_eq.
  - apply new_events_app. cbn. rewrite <- !app_assoc. reflexivity.
Qed.

End ProviderFailures.

Lemma LoginEnd_provider_failures_witness :
  let w := Scenario.world "N" true in
  let c := Scenario.request "https://gateway.example/login?state=S&code=ABC"
             [("state", "S"); ("nonce", "N")] Scenario.empty_session 1000 in
  let w' := {| decode_LoginEndRequest := decode_LoginEndRequest w;
               url_Parse := url_Parse w;
               json_Marshal_Token := json_Marshal_Token w;
               json_Unmarshal_Token := json_Unmarshal_Token w;
               decode_ProfileClaims := decode_ProfileClaims w;
               decode_claims_map := decode_claims_map w;
               oauthConfig_Exchange := fun _ _ => Err "oauth2: cannot fetch token";
               verifier_Verify := verifier_Verify w;
               provider_UserInfo := provider_UserInfo w;
               TokenSource_Token := TokenSource_Token w;
               agent_LogoutURL := agent_LogoutURL w;
               backend_RoundTrip := backend_RoundTrip w |} in
  status (Writer (run (LoginEnd w' Scenario.agent) c)) = 500
  /\ Errors (Writer (run (LoginEnd w' Scenario.agent) c)) =
       ["oauth2: cannot fetch token"].
Proof.
  intros w c w'.
  destruct (LoginEnd_provider_failures w' Scenario.agent c
              {| RequestURL := http.Body (Request c) |}
              (Scenario.callback [("state", ["S"]); ("code", ["ABC"])]) "N")
    as (Hexchange & _).
  all: try reflexivity.
  all: try (vm_compute; discriminate).
  destruct (Hexchange "oauth2: cannot fetch token" eq_refl) as (Hst & Herr & _).
  split; [exact Hst | exact Herr].
Defined.

Lemma LoginEnd_save_failure_witness :
  let w := Scenario.world "N" true in
  let s := {| values := ∅; persisted := ∅; store_fails := true;
              SessionID := "sid-4" |} in
  let c := Scenario.request "https://gateway.example/login?state=S&code=ABC"
             [("state", "S"); ("nonce", "N")] s 1000 in
  status (Writer (run (LoginEnd w Scenario.agent) c)) = 500
  /\ persisted (session (run (LoginEnd w Scenario.agent) c)) = ∅.
Proof.
  intros w s c.
  destruct (LoginEnd_save_failure w Scenario.agent c
              {| RequestURL := http.Body (Request c) |}
              (Scenario.callback [("state", ["S"]); ("code", ["ABC"])]) "N")
    with (rawIDToken := "raw-id-token") (tokenString := "token:access-1")
         (oauth2Token := Scenario.token "access-1" 5000000000000)
         (idToken := {| oidc.Nonce_ := "N"; oidc.Subject := "alice";
                        oidc.claims := Some "{sub: alice}" |})
         (req := Request c) (now := 2000)
    as (Hst & _ & _ & _ & _ & Hp & _).
  all: try reflexivity.
  all: try (vm_compute; discriminate).
  split; [exact Hst | exact Hp].
Defined.

(** ** Refresh: the failures on the way *)


